(** * automatminer/automl/nn/genetic.py: a shallow embedding

    The module defines a hyperparameter grid, the dataclass [NNModelInfo]
    (whose [ref] is a SHA-1 content hash of its parameter mapping) and the
    class [NNGA] with the methods [__init__], [evolve] and [fit].

    Conventions of the embedding:
    - a Python [dict] is an association list in insertion order (keys are
      unique in every dict the code builds); [str(OrderedDict(d))] depends
      on that order, so it is kept;
    - a [str] is a sequence of code points below 256;
    - an exception is a value of [exn]; a computation that can raise
      returns a [result];
    - the dicts bound to global names live in a [Heap] and are named by
      reference, so that an in-place store is seen through every alias;
    - [random] is an explicit stream of raw draws that is threaded through;
    - free (global) names of a method body are resolved in a [Namespace]:
      the names the module text binds are listed in [module_bindings], and
      [module_ns] is the namespace exactly as the module leaves it;
    - calls into numpy, pandas, scikit-learn and the sibling modules of the
      package are the fields of [MLBackend]; each of them can raise. *)

From Stdlib Require Import ZArith List String Ascii Bool Lia DecimalString Sorted.
From stdpp Require Import base list.
Import ListNotations.
Local Open Scope Z_scope.
Local Open Scope string_scope.

(** ** Exceptions and results *)

Inductive exn : Type :=
| NameError
| AttributeError
| ValueError
| KeyError
| IndexError
| TypeError
| OtherError (name : string).

Inductive result (A : Type) : Type :=
| Ok (a : A)
| Err (e : exn).
Arguments Ok {A} a.
Arguments Err {A} e.

Definition bind {A B : Type} (r : result A) (k : A -> result B) : result B :=
  match r with
  | Ok a => k a
  | Err e => Err e
  end.

Notation "x <- r ;; k" := (bind r (fun x => k))
  (at level 100, r at next level, right associativity).

(** ** hashlib.sha1 *)

Module SHA1.

Definition mask32 : Z := 0xFFFFFFFF.
Definition w32 (x : Z) : Z := Z.land x mask32.
Definition add32 (a b : Z) : Z := w32 (a + b).
Definition not32 (a : Z) : Z := Z.lxor a mask32.
Definition rotl (n x : Z) : Z :=
  w32 (Z.lor (Z.shiftl x n) (Z.shiftr x (32 - n))).

(** The UTF-8 encoding of one code point below 256. *)
Definition utf8_char (c : ascii) : list Z :=
  let n := Z.of_N (N_of_ascii c) in
  if (n <? 128)%Z then [n]
  else [Z.lor 0xC0 (Z.shiftr n 6); Z.lor 0x80 (Z.land n 0x3F)].

(** [s.encode("UTF-8")]. *)
Definition bytes_of_string (s : string) : list Z :=
  flat_map utf8_char (list_ascii_of_string s).

(** [n] bytes of [x], most significant first. *)
Fixpoint be_bytes (n : nat) (x : Z) : list Z :=
  match n with
  | O => []
  | S n' => Z.land (Z.shiftr x (8 * Z.of_nat n')) 0xFF :: be_bytes n' x
  end.

Definition pad (msg : list Z) : list Z :=
  let l := Z.of_nat (length msg) in
  let k := (55 - l) mod 64 in
  msg ++ [0x80] ++ repeat 0 (Z.to_nat k) ++ be_bytes 8 (8 * l).

Fixpoint words (bs : list Z) : list Z :=
  match bs with
  | a :: b :: c :: d :: rest =>
      Z.lor (Z.shiftl a 24) (Z.lor (Z.shiftl b 16) (Z.lor (Z.shiftl c 8) d))
      :: words rest
  | _ => []
  end.

(** Message schedule, newest word first: [rev_w] holds w[t-1], w[t-2], ... *)
Fixpoint expand (n : nat) (rev_w : list Z) : list Z :=
  match n with
  | O => rev_w
  | S n' =>
      let x := Z.lxor (nth 2 rev_w 0)
                 (Z.lxor (nth 7 rev_w 0) (Z.lxor (nth 13 rev_w 0) (nth 15 rev_w 0))) in
      expand n' (rotl 1 x :: rev_w)
  end.

Definition schedule (block : list Z) : list Z := rev (expand 64 (rev block)).

Record regs := mkRegs { ra : Z; rb : Z; rc : Z; rd : Z; re : Z }.

Definition round_fk (t : nat) (b c d : Z) : Z * Z :=
  if (t <? 20)%nat then (Z.lor (Z.land b c) (Z.land (not32 b) d), 0x5A827999)
  else if (t <? 40)%nat then (Z.lxor b (Z.lxor c d), 0x6ED9EBA1)
  else if (t <? 60)%nat then
    (Z.lor (Z.land b c) (Z.lor (Z.land b d) (Z.land c d)), 0x8F1BBCDC)
  else (Z.lxor b (Z.lxor c d), 0xCA62C1D6).

Definition round (r : regs) (tw : nat * Z) : regs :=
  let '(t, w) := tw in
  let '(f, k) := round_fk t (rb r) (rc r) (rd r) in
  let temp := add32 (add32 (add32 (add32 (rotl 5 (ra r)) f) (re r)) k) w in
  mkRegs temp (ra r) (rotl 30 (rb r)) (rc r) (rd r).

Definition compress (h : regs) (block : list Z) : regs :=
  let ws := schedule block in
  let r := fold_left round (combine (seq 0 80) ws) h in
  mkRegs (add32 (ra h) (ra r)) (add32 (rb h) (rb r)) (add32 (rc h) (rc r))
         (add32 (rd h) (rd r)) (add32 (re h) (re r)).

Fixpoint blocks (fuel : nat) (ws : list Z) : list (list Z) :=
  match fuel with
  | O => []
  | S fuel' =>
      match ws with
      | [] => []
      | _ => firstn 16 ws :: blocks fuel' (skipn 16 ws)
      end
  end.

Definition init : regs :=
  mkRegs 0x67452301 0xEFCDAB89 0x98BADCFE 0x10325476 0xC3D2E1F0.

Definition digest (msg : list Z) : regs :=
  let ws := words (pad msg) in
  fold_left compress (blocks (length ws) ws) init.

Definition hex_digit (x : Z) : ascii :=
  if (x <? 10)%Z then ascii_of_N (Z.to_N (48 + x)) else ascii_of_N (Z.to_N (87 + x)).

Fixpoint hex_of (n : nat) (x : Z) : string :=
  match n with
  | O => EmptyString
  | S n' => String (hex_digit (Z.land (Z.shiftr x (4 * Z.of_nat n')) 0xF)) (hex_of n' x)
  end.

(** [sha1(s.encode("UTF-8")).hexdigest()]. *)
Definition hexdigest (s : string) : string :=
  let r := digest (bytes_of_string s) in
  hex_of 8 (ra r) ++ hex_of 8 (rb r) ++ hex_of 8 (rc r) ++ hex_of 8 (rd r)
  ++ hex_of 8 (re r).

End SHA1.

(** ** Python values of the parameter grid and their [repr] *)

(** A gene's value: the grid holds strings (activation and optimizer names)
    and integers ([range] objects); [bool] is the third type embedded
    ([float] is not). *)
Inductive allele : Type :=
| AStr (s : string)
| AInt (z : Z)
| ABool (b : bool).

(** The integer a [bool] is equal to. *)
Definition int_of_bool (b : bool) : Z := if b then 1 else 0.

(** [a == b]: numbers compare by value across [int] and [bool]
    ([True == 1]), a [str] is equal to a [str] only. *)
Definition allele_eqb (a b : allele) : bool :=
  match a, b with
  | AStr s, AStr t => String.eqb s t
  | AInt x, AInt y => Z.eqb x y
  | AInt x, ABool c => Z.eqb x (int_of_bool c)
  | ABool c, AInt y => Z.eqb (int_of_bool c) y
  | ABool c, ABool d => Bool.eqb c d
  | _, _ => false
  end.

(** A [dict] with [str] keys, in insertion order. *)
Fixpoint dict_get {V : Type} (k : string) (d : list (string * V)) : option V :=
  match d with
  | [] => None
  | (k', v) :: d' => if String.eqb k k' then Some v else dict_get k d'
  end.

(** [d[k] = v]: an existing key keeps its position. *)
Fixpoint dict_set {V : Type} (k : string) (v : V) (d : list (string * V))
  : list (string * V) :=
  match d with
  | [] => [(k, v)]
  | (k', v') :: d' =>
      if String.eqb k k' then (k, v) :: d' else (k', v') :: dict_set k v d'
  end.

Definition keys {V : Type} (d : list (string * V)) : list string := List.map fst d.

(** [d[k]] as an expression. *)
Definition getitem {V : Type} (d : list (string * V)) (k : string) : result V :=
  match dict_get k d with
  | Some v => Ok v
  | None => Err KeyError
  end.

(** A parameter mapping. *)
Definition ParamDict : Type := list (string * allele).

(** The hyperparameter grid: parameter name to the sequence of its values. *)
Definition Grid : Type := list (string * list allele).

(** [p == q] on two dicts: same number of items and every item of [p] is
    an item of [q]; the order of insertion plays no part. *)
Definition dict_eqb (p q : ParamDict) : bool :=
  Nat.eqb (length p) (length q)
  && forallb (fun kv => match dict_get (fst kv) q with
                        | Some v => allele_eqb (snd kv) v
                        | None => false
                        end) p.

Module PyRepr.

Definition char_code (c : ascii) : Z := Z.of_N (N_of_ascii c).

Fixpoint contains (c : ascii) (s : string) : bool :=
  match s with
  | EmptyString => false
  | String c' s' => Ascii.eqb c c' || contains c s'
  end.

Definition squote : ascii := ascii_of_N 39.
Definition dquote : ascii := ascii_of_N 34.
Definition bslash : ascii := ascii_of_N 92.

(** The quote [repr] picks: double quotes only when the text has a single
    quote and no double quote. *)
Definition quote_of (s : string) : ascii :=
  if contains squote s && negb (contains dquote s) then dquote else squote.

(** [str.isprintable] on a code point below 256: false on the control
    characters, on the no-break space and on the soft hyphen. *)
Definition printable (n : Z) : bool :=
  negb ((n <? 32)%Z || ((127 <=? n)%Z && (n <=? 160)%Z) || (n =? 173)%Z).

Definition escape_char (q c : ascii) : string :=
  let n := char_code c in
  if Ascii.eqb c q || Ascii.eqb c bslash then String bslash (String c EmptyString)
  else if (n =? 9)%Z then String bslash "t"
  else if (n =? 10)%Z then String bslash "n"
  else if (n =? 13)%Z then String bslash "r"
  else if negb (printable n) then
    String bslash (String "x" (SHA1.hex_of 2 n))
  else String c EmptyString.

Fixpoint escape (q : ascii) (s : string) : string :=
  match s with
  | EmptyString => EmptyString
  | String c s' => escape_char q c ++ escape q s'
  end.

(** [repr(s)] for a [str]. *)
Definition repr_str (s : string) : string :=
  let q := quote_of s in
  String q (escape q s ++ String q EmptyString).

Definition repr_int (z : Z) : string := NilZero.string_of_int (Z.to_int z).

Definition repr (a : allele) : string :=
  match a with
  | AStr s => repr_str s
  | AInt z => repr_int z
  | ABool true => "True"
  | ABool false => "False"
  end.

Definition repr_item (kv : string * allele) : string :=
  "(" ++ repr_str (fst kv) ++ ", " ++ repr (snd kv) ++ ")".

Fixpoint join (sep : string) (l : list string) : string :=
  match l with
  | [] => EmptyString
  | [x] => x
  | x :: l' => x ++ sep ++ join sep l'
  end.

(** [str(OrderedDict(d))] as CPython prints it up to 3.11: the items in
    insertion order. *)
Definition str_OrderedDict (d : ParamDict) : string :=
  match d with
  | [] => "OrderedDict()"
  | _ => "OrderedDict([" ++ join ", " (List.map repr_item d) ++ "])"
  end.

End PyRepr.

(** ** The random module *)

(** The generator is a stream of raw draws; a draw consumes its head. *)
Definition Rng : Type := nat -> nat.

Definition rng_next (rng : Rng) : Rng := fun n => rng (S n).

(** [random.choice(seq)]: [IndexError] on an empty sequence. *)
Definition random_choice {A : Type} (g : list A) (rng : Rng) : result (A * Rng) :=
  match g !! (rng O mod length g)%nat with
  | Some x => Ok (x, rng_next rng)
  | None => Err IndexError
  end.

(** ** The external libraries *)

(** numpy, pandas, scikit-learn, [NNWrapper] and the helpers of
    [automatminer.utils]: none of them is defined in this module. A call
    into them returns a value or raises; arithmetic and tests on floats
    return. *)
Class MLBackend : Type := {
  pyfloat : Type;
  Features : Type;
  Labels : Type;
  Model : Type;
  DataFrame : Type;
  neg1_times : pyfloat -> pyfloat;
  isnan : pyfloat -> bool;
  float_ltb : pyfloat -> pyfloat -> bool;
  ndarray_mean : list pyfloat -> pyfloat;
  mean_absolute_error : Labels -> Labels -> result pyfloat;
  mean_squared_error : Labels -> Labels -> result pyfloat;
  sk_f1_score : Labels -> Labels -> result pyfloat;
  sk_roc_auc_score : Labels -> Labels -> result pyfloat;
  sk_accuracy_score : Labels -> Labels -> result pyfloat;
  NNWrapper : ParamDict -> result Model;
  model_fit : Model -> Features -> Labels -> result Model;
  model_predict : Model -> Features -> result Labels;
  model_mode : Model -> result (option string);
  cross_val_score : Model -> Features -> Labels -> result (list pyfloat);
  train_test_split :
    Features -> Labels -> result ((Features * Features) * (Labels * Labels));
  df_target_values : DataFrame -> string -> result Labels;
  df_drop_values : DataFrame -> string -> result Features;
  regression_or_classification : DataFrame -> string -> result string;
  AMM_REG_NAME : string;
  AMM_CLF_NAME : string
}.

(** ** Global names *)

(** Names bound by importing the module: its imports, assignments, [def]s
    and [class]es (lines 1-53), and the names every imported module has. *)
Definition module_bindings : list string :=
  ["random"; "sha1"; "dataclass"; "OrderedDict"; "ChainMap"; "np"; "KFold";
   "cross_val_score"; "train_test_split"; "mean_absolute_error";
   "mean_squared_error"; "f1_score"; "accuracy_score"; "roc_auc_score";
   "NNWrapper"; "LoggableMixin"; "DFMLAdaptor"; "log_progress";
   "AMM_LOG_FIT_STR"; "AMM_LOG_PREDICT_STR"; "set_fitted"; "check_fitted";
   "AMM_REG_NAME"; "AMM_CLF_NAME"; "regression_or_classification";
   "__authors__"; "param_grid"; "NNModelInfo"; "neg_mean_absolute_error";
   "neg_mean_squared_error"; "NNGA"; "__name__"; "__doc__";
   "__package__"; "__loader__"; "__spec__"; "__file__"; "__cached__";
   "__builtins__"].

Definition python_builtins : list string :=
  ["ArithmeticError"; "AssertionError"; "AttributeError"; "BaseException";
   "BaseExceptionGroup"; "BlockingIOError"; "BrokenPipeError"; "BufferError";
   "BytesWarning"; "ChildProcessError"; "ConnectionAbortedError";
   "ConnectionError"; "ConnectionRefusedError"; "ConnectionResetError";
   "DeprecationWarning"; "EOFError"; "Ellipsis"; "EncodingWarning";
   "EnvironmentError"; "Exception"; "ExceptionGroup"; "False";
   "FileExistsError"; "FileNotFoundError"; "FloatingPointError";
   "FutureWarning"; "GeneratorExit"; "IOError"; "ImportError";
   "ImportWarning"; "IndentationError"; "IndexError"; "InterruptedError";
   "IsADirectoryError"; "KeyError"; "KeyboardInterrupt"; "LookupError";
   "MemoryError"; "ModuleNotFoundError"; "NameError"; "None";
   "NotADirectoryError"; "NotImplemented"; "NotImplementedError"; "OSError";
   "OverflowError"; "PendingDeprecationWarning"; "PermissionError";
   "ProcessLookupError"; "RecursionError"; "ReferenceError";
   "ResourceWarning"; "RuntimeError"; "RuntimeWarning"; "StopAsyncIteration";
   "StopIteration"; "SyntaxError"; "SyntaxWarning"; "SystemError";
   "SystemExit"; "TabError"; "TimeoutError"; "True"; "TypeError";
   "UnboundLocalError"; "UnicodeDecodeError"; "UnicodeEncodeError";
   "UnicodeError"; "UnicodeTranslateError"; "UnicodeWarning"; "UserWarning";
   "ValueError"; "Warning"; "ZeroDivisionError"; "__build_class__";
   "__debug__"; "__import__"; "abs"; "aiter"; "all"; "anext"; "any"; "ascii";
   "bin"; "bool"; "breakpoint"; "bytearray"; "bytes"; "callable"; "chr";
   "classmethod"; "compile"; "complex"; "copyright"; "credits"; "delattr";
   "dict"; "dir"; "divmod"; "enumerate"; "eval"; "exec"; "exit"; "filter";
   "float"; "format"; "frozenset"; "getattr"; "globals"; "hasattr"; "hash";
   "help"; "hex"; "id"; "input"; "int"; "isinstance"; "issubclass"; "iter";
   "len"; "license"; "list"; "locals"; "map"; "max"; "memoryview"; "min";
   "next"; "object"; "oct"; "open"; "ord"; "pow"; "print"; "property";
   "quit"; "range"; "repr"; "reversed"; "round"; "set"; "setattr"; "slice";
   "sorted"; "staticmethod"; "str"; "sum"; "super"; "tuple"; "type"; "vars";
   "zip"].

Definition bound_by_module (x : string) : bool :=
  existsb (String.eqb x) (module_bindings ++ python_builtins).

(** The names the method bodies of [NNGA] read without binding them as a
    parameter or a local. *)
Definition free_names : list string :=
  ["random_select"; "models"; "pop"; "child"; "mother"; "father"].

Section Genetic.

Context {B : MLBackend}.

(** A value a global name can hold. [GOpaque] stands for the modules,
    functions and classes the module text and the builtins bind; a dict is
    held by reference. *)
Inductive gval : Type :=
| GOpaque
| GFloat (f : pyfloat)
| GDict (o : nat)
| GModels (l : list (Model * ParamDict)).

(** The global namespace a method body sees when it runs. *)
Definition Namespace : Type := string -> option gval.

(** The dict objects the globals refer to, by identity. *)
Definition Heap : Type := nat -> ParamDict.

Definition heap_set (o : nat) (d : ParamDict) (h : Heap) : Heap :=
  fun o' => if Nat.eqb o o' then d else h o'.

(** The namespace as the module text leaves it. *)
Definition module_ns : Namespace :=
  fun x => if bound_by_module x then Some GOpaque else None.

Definition ns_set (x : string) (v : gval) (ns : Namespace) : Namespace :=
  fun y => if String.eqb x y then Some v else ns y.

(** Reading a global name. *)
Definition load_global (ns : Namespace) (x : string) : result gval :=
  match ns x with
  | Some v => Ok v
  | None => Err NameError
  end.

(** [g[k]] for a global [g] and a [str] key [k]. *)
Definition subscript (h : Heap) (v : gval) (k : string) : result allele :=
  match v with
  | GDict o => getitem (h o) k
  | _ => Err TypeError
  end.

(** ** NNModelInfo (lines 27-42) *)

Record NNModelInfo : Type := mkNNModelInfo {
  params : option ParamDict;
  gen : Z;
  score : option pyfloat;
  parents : option (list string);
  children : option (list string)
}.

(** [OrderedDict(self.params)]: the items in the order [params] has them;
    [OrderedDict(None)] raises [TypeError]. *)
Definition ordered_params (m : NNModelInfo) : result ParamDict :=
  match params m with
  | Some d => Ok d
  | None => Err TypeError
  end.

Definition ref (m : NNModelInfo) : result string :=
  d <- ordered_params m ;;
  let model_hash := SHA1.hexdigest (PyRepr.str_OrderedDict d) in
  Ok ("model_" ++ model_hash).

(** ** Scorers (lines 45-50 and the two tables of [__init__]) *)

Inductive scorer : Type :=
| neg_mean_absolute_error
| neg_mean_squared_error
| f1_score
| roc_auc_score
| accuracy_score.

Definition call_scorer (s : scorer) (y_true y_pred : Labels) : result pyfloat :=
  match s with
  | neg_mean_absolute_error =>
      x <- mean_absolute_error y_true y_pred ;; Ok (neg1_times x)
  | neg_mean_squared_error =>
      x <- mean_squared_error y_true y_pred ;; Ok (neg1_times x)
  | f1_score => sk_f1_score y_true y_pred
  | roc_auc_score => sk_roc_auc_score y_true y_pred
  | accuracy_score => sk_accuracy_score y_true y_pred
  end.

Definition reg_metrics : list (string * scorer) :=
  [("neg_mae", neg_mean_absolute_error); ("neg_mse", neg_mean_squared_error)].

Definition clf_metrics : list (string * scorer) :=
  [("f1", f1_score); ("roc_auc", roc_auc_score); ("accuracy", accuracy_score)].

(** ** NNGA *)

(** What [self.pop] holds: [__init__] stores a dict from ref to individual;
    [evolve] iterates whatever iterable the attribute holds, and a list of
    individuals is the other shape it is written for. The individuals of a
    list are distinct objects. *)
Inductive population : Type :=
| PopDict (d : list (string * NNModelInfo))
| PopList (l : list NNModelInfo).

Inductive model_class_t : Type :=
| NNWrapper_class.

Definition instantiate (c : model_class_t) (kwargs : ParamDict) : result Model :=
  match c with
  | NNWrapper_class => NNWrapper kwargs
  end.

(** An instance with the attributes [__init__] assigns. *)
Record NNGA : Type := mkNNGA {
  param_grid : Grid;
  random_select : gval;
  mutation_rate : pyfloat;
  pop_size : Z;
  pbar : bool;
  mode : option string;
  selection_rate : pyfloat;
  reg_scorer : scorer;
  clf_scorer : scorer;
  pop : population;
  model_class : model_class_t
}.

(** The arguments of [NNGA(...)]. *)
Record InitArgs : Type := mkInitArgs {
  arg_param_grid : Grid;
  arg_selection_rate : pyfloat;
  arg_random_rate : pyfloat;
  arg_mutation_rate : pyfloat;
  arg_elitism_rate : pyfloat;
  arg_pop_size : Z;
  arg_reg_metric : string;
  arg_clf_metric : string;
  arg_pbar : bool
}.

(** Line 81: one value per parameter, drawn in the order of the grid. *)
Fixpoint sample_params (grid : Grid) (rng : Rng) : result (ParamDict * Rng) :=
  match grid with
  | [] => Ok ([], rng)
  | (p, g) :: grid' =>
      vr <- random_choice g rng ;;
      dr <- sample_params grid' (snd vr) ;;
      Ok ((p, fst vr) :: fst dr, snd dr)
  end.

(** Line 82: [any([p == params for p in param_pop])]; [None == params] is
    false. *)
Definition already_sampled (params : ParamDict) (param_pop : list (option ParamDict))
  : bool :=
  existsb (fun p => match p with
                    | Some q => dict_eqb q params
                    | None => false
                    end) param_pop.

(** Lines 80-85, for the remaining indices [idxs]. *)
Fixpoint param_pop_loop (grid : Grid) (idxs : list nat)
    (param_pop : list (option ParamDict)) (rng : Rng)
  : result (list (option ParamDict) * Rng) :=
  match idxs with
  | [] => Ok (param_pop, rng)
  | i :: idxs' =>
      pr <- sample_params grid rng ;;
      if already_sampled (fst pr) param_pop
      then param_pop_loop grid idxs' param_pop (snd pr)
      else param_pop_loop grid idxs' (<[i := Some (fst pr)]> param_pop) (snd pr)
  end.

(** Lines 79-85. *)
Definition init_param_pop (grid : Grid) (pop_size : Z) (rng : Rng)
  : result (list (option ParamDict) * Rng) :=
  let n := Z.to_nat pop_size in
  param_pop_loop grid (seq 0 n) (repeat None n) rng.

(** Line 88: [{nn.ref: nn for nn in nns}]. *)
Fixpoint pop_of_nns (nns : list NNModelInfo) (acc : list (string * NNModelInfo))
  : result (list (string * NNModelInfo)) :=
  match nns with
  | [] => Ok acc
  | nn :: nns' =>
      r <- ref nn ;;
      pop_of_nns nns' (dict_set r nn acc)
  end.

(** Lines 54-89. *)
Definition __init__ (ns : Namespace) (a : InitArgs) (rng : Rng)
  : result (NNGA * Rng) :=
  rs <- load_global ns "random_select" ;;
  reg <- getitem reg_metrics (arg_reg_metric a) ;;
  clf <- getitem clf_metrics (arg_clf_metric a) ;;
  pr <- init_param_pop (arg_param_grid a) (arg_pop_size a) rng ;;
  let nns := List.map (fun p => mkNNModelInfo p 0 None None None) (fst pr) in
  pop <- pop_of_nns nns [] ;;
  Ok ({| param_grid := arg_param_grid a;
         random_select := rs;
         mutation_rate := arg_mutation_rate a;
         pop_size := 15;
         pbar := arg_pbar a;
         mode := None;
         selection_rate := arg_selection_rate a;
         reg_scorer := reg;
         clf_scorer := clf;
         pop := PopDict pop;
         model_class := NNWrapper_class |}, snd pr).

(** ** evolve (lines 96-120) *)

(** What iterating [self.pop] yields: a dict yields its keys. *)
Inductive element : Type :=
| EKey (k : string)
| EInd (m : NNModelInfo).

Definition py_iter (p : population) : list element :=
  match p with
  | PopDict d => List.map (fun kv => EKey (fst kv)) d
  | PopList l => List.map EInd l
  end.

(** Line 99: [[i for i in self.pop if i.gen == gen]]; a [str] has no
    attribute [gen]. *)
Fixpoint gen_pop_of (g : Z) (items : list element) : result (list NNModelInfo) :=
  match items with
  | [] => Ok []
  | EKey _ :: _ => Err AttributeError
  | EInd m :: items' =>
      rest <- gen_pop_of g items' ;;
      Ok (if Z.eqb (gen m) g then m :: rest else rest)
  end.

(** The calls into the model and metric libraries, in the order made; a
    call that raised is followed by [EvRaise]. *)
Inductive event : Type :=
| EvConstruct (kwargs : ParamDict)
| EvFit (X : Features) (y : Labels)
| EvPredict (X : Features)
| EvScore (s : scorer) (y_true y_pred : Labels)
| EvRaise (e : exn).

(** The record of calls after the call [ev] ended as [r]. *)
Definition record {A : Type} (tr : list event) (ev : event) (r : result A)
  : list event :=
  match r with
  | Ok _ => (tr ++ [ev])%list
  | Err e => (tr ++ [ev; EvRaise e])%list
  end.

Definition mode_is (m : option string) (name : string) : bool :=
  match m with
  | Some s => String.eqb s name
  | None => false
  end.

(** Lines 104-113. *)
Definition select_scorer (self : NNGA) : result scorer :=
  if mode_is (mode self) AMM_REG_NAME then Ok (reg_scorer self)
  else if mode_is (mode self) AMM_CLF_NAME then Ok (clf_scorer self)
  else Err ValueError.

Definition set_score (m : NNModelInfo) (s : pyfloat) : NNModelInfo :=
  {| params := params m; gen := gen m; score := Some s;
     parents := parents m; children := children m |}.

(** Lines 101-103 for the keyword arguments [p]: the model is built,
    fitted and asked to predict. *)
Definition predict_for (self : NNGA) (X_train X_val : Features) (y_train : Labels)
    (p : ParamDict) : result Labels :=
  model <- instantiate (model_class self) p ;;
  fitted <- model_fit model X_train y_train ;;
  model_predict fitted X_val.

(** Lines 101-115, the body of the loop: the individual as the body leaves
    it, the calls made so far, and how the body ended. [**None] is a
    [TypeError]; an exception of a library call propagates. *)
Definition score_individual (self : NNGA) (X_train X_val : Features)
    (y_train y_val : Labels) (individual : NNModelInfo) (tr : list event)
  : NNModelInfo * list event * result unit :=
  match params individual with
  | None => (individual, tr, Err TypeError)
  | Some p =>
      let r1 := instantiate (model_class self) p in
      let tr1 := record tr (EvConstruct p) r1 in
      match r1 with
      | Err e => (individual, tr1, Err e)
      | Ok model =>
          let r2 := model_fit model X_train y_train in
          let tr2 := record tr1 (EvFit X_train y_train) r2 in
          match r2 with
          | Err e => (individual, tr2, Err e)
          | Ok fitted =>
              let r3 := model_predict fitted X_val in
              let tr3 := record tr2 (EvPredict X_val) r3 in
              match r3 with
              | Err e => (individual, tr3, Err e)
              | Ok y_pred =>
                  match select_scorer self with
                  | Err e => (individual, tr3, Err e)
                  | Ok sc =>
                      let r4 := call_scorer sc y_val y_pred in
                      let tr4 := record tr3 (EvScore sc y_val y_pred) r4 in
                      match r4 with
                      | Err e => (individual, tr4, Err e)
                      | Ok s => (set_score individual s, tr4, Ok tt)
                      end
                  end
              end
          end
      end
  end.

(** Lines 100-115: the individuals of the generation as the loop leaves
    them; an exception stops the loop where it is raised. *)
Fixpoint evaluate (self : NNGA) (X_train X_val : Features) (y_train y_val : Labels)
    (gen_pop : list NNModelInfo) (tr : list event)
  : list NNModelInfo * list event * result unit :=
  match gen_pop with
  | [] => ([], tr, Ok tt)
  | individual :: rest =>
      match score_individual self X_train X_val y_train y_val individual tr with
      | (individual', tr1, Ok _) =>
          match evaluate self X_train X_val y_train y_val rest tr1 with
          | (rest', tr2, r) => (individual' :: rest', tr2, r)
          end
      | (individual', tr1, Err e) => (individual' :: rest, tr1, Err e)
      end
  end.

(** Line 120: [child[param] = random.choice([mother[param], father[param]])].
    The right-hand side is evaluated before the target, and the store
    changes the dict object [child] refers to, in place. *)
Definition breed_gene (ns : Namespace) (param : string) (st : Heap * Rng)
  : (Heap * Rng) * result unit :=
  let '(h, rng) := st in
  match (mother <- load_global ns "mother" ;;
         m <- subscript h mother param ;;
         father <- load_global ns "father" ;;
         f <- subscript h father param ;;
         random_choice [m; f] rng) with
  | Err e => (h, rng, Err e)
  | Ok (v, rng') =>
      match load_global ns "child" with
      | Err e => (h, rng', Err e)
      | Ok (GDict o) => (heap_set o (dict_set param v (h o)) h, rng', Ok tt)
      | Ok _ => (h, rng', Err TypeError)
      end
  end.

(** A [for] loop whose body updates a state and can raise. *)
Fixpoint for_each {A S : Type} (body : A -> S -> S * result unit) (l : list A) (s : S)
  : S * result unit :=
  match l with
  | [] => (s, Ok tt)
  | x :: l' =>
      match body x s with
      | (s1, Ok _) => for_each body l' s1
      | (s1, Err e) => (s1, Err e)
      end
  end.

(** Lines 118-120. *)
Definition breed (ns : Namespace) (grid : Grid) (st : Heap * Rng)
  : (Heap * Rng) * result unit :=
  for_each (fun (_ : nat) => for_each (breed_gene ns) (keys grid)) (seq 0 2) st.

(** What a call of [evolve] leaves behind. *)
Record EvolveRun : Type := mkEvolveRun {
  run_gen_pop : list NNModelInfo;  (* the individuals selected at line 99, after the call *)
  run_trace : list event;          (* library calls made *)
  run_ns : Namespace;              (* the global namespace after the call *)
  run_heap : Heap;                 (* the dicts of the globals after the call *)
  run_rng : Rng;
  run_outcome : result unit        (* [Ok tt]: returned [None] *)
}.

(** Lines 96-120. No statement of the body binds a global name. *)
Definition evolve (ns : Namespace) (h : Heap) (self : NNGA) (g : Z)
    (X_train X_val : Features) (y_train y_val : Labels) (rng : Rng) : EvolveRun :=
  match gen_pop_of g (py_iter (pop self)) with
  | Err e => mkEvolveRun [] [] ns h rng (Err e)
  | Ok gen_pop =>
      match evaluate self X_train X_val y_train y_val gen_pop [] with
      | (gen_pop', tr, Err e) => mkEvolveRun gen_pop' tr ns h rng (Err e)
      | (gen_pop', tr, Ok _) =>
          match breed ns (param_grid self) (h, rng) with
          | (h', rng', r) => mkEvolveRun gen_pop' tr ns h' rng' r
          end
      end
  end.

(** ** fit (lines 125-173) *)

Definition Grade : Type := list pyfloat * ParamDict.

(** [sorted(grades, key=lambda x: x[0].mean(), reverse=True)]: stable, by
    decreasing key. When a key is NaN the comparison is not an order and
    the sequence CPython produces is not this one; the elements are the
    same. *)
Fixpoint insert_grade (x : Grade) (l : list Grade) : list Grade :=
  match l with
  | [] => [x]
  | y :: l' =>
      if float_ltb (ndarray_mean (fst x)) (ndarray_mean (fst y))
      then y :: insert_grade x l'
      else x :: y :: l'
  end.

Definition sorted_by_mean_desc (grades : list Grade) : list Grade :=
  fold_right insert_grade [] grades.

(** Line 147: [all([not np.isnan(result) for result in score])]. *)
Definition no_nan (sc : list pyfloat) : bool := forallb (fun r => negb (isnan r)) sc.

(** Lines 141-143: the loop of the regression branch; an exception of
    [cross_val_score] ends it. *)
Fixpoint grade_all (models : list (Model * ParamDict)) (X : Features) (y : Labels)
  : result (list Grade) :=
  match models with
  | [] => Ok []
  | (model, dicti) :: models' =>
      sc <- cross_val_score model X y ;;
      grades <- grade_all models' X y ;;
      Ok ((sc, dicti) :: grades)
  end.

(** Lines 145-148: the loop of the other branch. *)
Fixpoint grade_without_nan (models : list (Model * ParamDict)) (X : Features)
    (y : Labels) : result (list Grade) :=
  match models with
  | [] => Ok []
  | (model, dicti) :: models' =>
      sc <- cross_val_score model X y ;;
      grades <- grade_without_nan models' X y ;;
      Ok (if no_nan sc then (sc, dicti) :: grades else grades)
  end.

(** Lines 139-150: [models[0][0]] raises [IndexError] on an empty list. *)
Definition cv_grades (models : list (Model * ParamDict)) (X : Features) (y : Labels)
  : result (list Grade) :=
  match models with
  | [] => Err IndexError
  | (m0, _) :: _ =>
      m <- model_mode m0 ;;
      grades <- (if mode_is m AMM_REG_NAME
                 then grade_all models X y
                 else grade_without_nan models X y) ;;
      Ok (sorted_by_mean_desc grades)
  end.

Definition set_mode (self : NNGA) (m : option string) : NNGA :=
  {| param_grid := param_grid self; random_select := random_select self;
     mutation_rate := mutation_rate self; pop_size := pop_size self;
     pbar := pbar self; mode := m; selection_rate := selection_rate self;
     reg_scorer := reg_scorer self; clf_scorer := clf_scorer self;
     pop := pop self; model_class := model_class self |}.

(** Lines 151-173 read attributes and methods that neither this class nor
    [__init__] defines ([retain], [mutate_chance], [mutate], [breed]); what
    they do is left to [rest]. *)
Definition FitRest : Type :=
  Namespace -> NNGA -> list Grade -> Rng -> NNGA * result (list ParamDict).

(** Lines 127-173, the body under the two decorators: the instance as the
    call leaves it, and its outcome. Line 135 does nothing; line 138 builds
    the [KFold] splitter from constants, for [cross_val_score]. *)
Definition fit (ns : Namespace) (rest : FitRest) (self : NNGA) (df : DataFrame)
    (target : string) (rng : Rng) : NNGA * result (list ParamDict) :=
  match df_target_values df target with                      (* line 128 *)
  | Err e => (self, Err e)
  | Ok y =>
      match df_drop_values df target with                    (* line 129 *)
      | Err e => (self, Err e)
      | Ok X =>
          match regression_or_classification df target with  (* line 131 *)
          | Err e => (self, Err e)
          | Ok m =>
              let self1 := set_mode self (Some m) in
              match train_test_split X y with                (* line 133 *)
              | Err e => (self1, Err e)
              | Ok _ =>
                  match load_global ns "models" with         (* line 140 *)
                  | Err e => (self1, Err e)
                  | Ok (GModels models) =>
                      match cv_grades models X y with
                      | Err e => (self1, Err e)
                      | Ok grades => rest ns self1 grades rng
                      end
                  | Ok (GDict _) => (self1, Err KeyError)
                  | Ok _ => (self1, Err TypeError)
                  end
              end
          end
      end
  end.

End Genetic.

Arguments mkNNModelInfo {B} params gen score parents children.

(** The module-level [param_grid] (lines 19-24). *)
Definition default_param_grid : Grid :=
  [("activation", List.map AStr ["sigmoid"; "tanh"; "relu"; "elu"]);
   ("optimizers", List.map AStr ["sgd"; "rmsprop"; "adagrad"; "adadelta";
                                 "nadam"; "adamax"; "adam"]);
   ("units", List.map (fun n => AInt (Z.of_nat n)) (seq 1 999));
   ("hidden_layer_sizes", List.map (fun n => AInt (Z.of_nat n)) (seq 1 4))].

(** ** A small backend to run the definitions on *)

(** Labels and features are integers, a float is an integer or NaN. A
    model remembers its keyword arguments (its mode is the one stored under
    "mode") and the number it was fitted on; the wrapper rejects the keyword
    "bogus". The two binary metrics raise [ValueError] on a label other than
    0 and 1. Cross-validation gives one score, NaN for a model without
    "units". A dataframe is its columns, each with one number; asking for a
    column that is not there raises [KeyError]. *)
Definition binary_metric (y p : Z) : result (option Z) :=
  if (Z.eqb y 0 || Z.eqb y 1) && (Z.eqb p 0 || Z.eqb p 1)
  then Ok (Some (if Z.eqb y p then 1 else 0))
  else Err ValueError.

Definition toy_backend : MLBackend := {|
  pyfloat := option Z;
  Features := Z;
  Labels := Z;
  Model := ParamDict * Z;
  DataFrame := list (string * Z);
  neg1_times := fun x => option_map Z.opp x;
  isnan := fun x => match x with Some _ => false | None => true end;
  float_ltb := fun x y => match x, y with
                          | Some a, Some b => Z.ltb a b
                          | _, _ => false
                          end;
  ndarray_mean := fun l => match l with x :: _ => x | [] => None end;
  mean_absolute_error := fun y p => Ok (Some (Z.abs (y - p)));
  mean_squared_error := fun y p => Ok (Some ((y - p) * (y - p)));
  sk_f1_score := binary_metric;
  sk_roc_auc_score := binary_metric;
  sk_accuracy_score := fun y p => Ok (Some (if Z.eqb y p then 1 else 0));
  NNWrapper := fun kw => match dict_get "bogus" kw with
                         | Some _ => Err TypeError
                         | None => Ok (kw, 0)
                         end;
  model_fit := fun m X y => Ok (fst m, X + y);
  model_predict := fun m X => Ok (snd m + X);
  model_mode := fun m => Ok (match dict_get "mode" (fst m) with
                             | Some (AStr s) => Some s
                             | _ => None
                             end);
  cross_val_score := fun m X y => Ok (match dict_get "units" (fst m) with
                                      | Some (AInt u) => [Some (u + X + y)]
                                      | _ => [None]
                                      end);
  train_test_split := fun X y => Ok ((X, X), (y, y));
  df_target_values := fun df t => getitem df t;
  df_drop_values := fun df t => _ <- getitem df t ;; Ok (Z.of_nat (length df));
  regression_or_classification := fun df t => _ <- getitem df t ;; Ok "regression";
  AMM_REG_NAME := "regression";
  AMM_CLF_NAME := "classification"
|}.

(** Sample objects over the small backend. *)
Definition rng0 : Rng := fun n => n.

Definition toy_float (z : Z) : @pyfloat toy_backend := Some z.

Definition heap0 : Heap := fun _ => [].

Definition ind_a : @NNModelInfo toy_backend :=
  mkNNModelInfo (Some [("units", AInt 3)]) 0 None None None.

Definition ind_b : @NNModelInfo toy_backend :=
  mkNNModelInfo (Some [("units", AInt 7)]) 0 None None None.

Definition ind_old : @NNModelInfo toy_backend :=
  mkNNModelInfo (Some [("units", AInt 9)]) 1 None None None.

Definition ind_none : @NNModelInfo toy_backend :=
  mkNNModelInfo None 0 None None None.

Definition toy_nnga (m : option string) (p : @population toy_backend) (grid : Grid)
  : @NNGA toy_backend :=
  {| param_grid := grid; random_select := @GFloat toy_backend (toy_float 5);
     mutation_rate := toy_float 5; pop_size := 15; pbar := true; mode := m;
     selection_rate := toy_float 75; reg_scorer := neg_mean_absolute_error;
     clf_scorer := f1_score; pop := p; model_class := NNWrapper_class |}.

(** The module namespace with a global [random_select] added from outside. *)
Definition ns_with_random_select : @Namespace toy_backend :=
  ns_set "random_select" (@GFloat toy_backend (toy_float 5)) module_ns.

Definition toy_args (grid : Grid) (n : Z) : @InitArgs toy_backend :=
  {| arg_param_grid := grid; arg_selection_rate := toy_float 75;
     arg_random_rate := toy_float 5; arg_mutation_rate := toy_float 5;
     arg_elitism_rate := toy_float 5; arg_pop_size := n;
     arg_reg_metric := "neg_mae"; arg_clf_metric := "f1"; arg_pbar := true |}.

(** A list [models] of (model, parameter mapping) pairs bound as a global
    from outside, and a stand-in for lines 151-173. *)
Definition clf_model (kw : ParamDict) : @Model toy_backend :=
  (("mode", AStr "classification") :: kw, 0).

Definition toy_models : list (@Model toy_backend * ParamDict) :=
  [(clf_model [("units", AInt 3)], [("units", AInt 3)]);
   (clf_model [], [("activation", AStr "relu")]);
   (clf_model [("units", AInt 8)], [("units", AInt 8)])].

Definition ns_with_models : @Namespace toy_backend :=
  ns_set "models" (GModels toy_models) module_ns.

Definition toy_rest : @FitRest toy_backend :=
  fun _ self grades _ => (self, Ok (List.map snd grades)).

Definition toy_df : @DataFrame toy_backend := [("x", 1); ("y", 2)].

(** Small grids and mappings. *)
Definition grid_one : Grid := [("activation", [AStr "relu"])].
Definition params_relu : ParamDict := [("activation", AStr "relu")].
Definition grid_two : Grid := [("units", [AInt 1; AInt 2])].
Definition p_ab : ParamDict := [("a", AInt 1); ("b", AInt 2)].

(** The instance [NNGA(param_grid=grid_two, pop_size=2, reg_metric="neg_mae")]
    builds when [random_select] is bound and the two samples differ. *)
Definition toy_pop_2 : list (string * @NNModelInfo toy_backend) :=
  [("model_4e5ae9f86cab8b1627fa26386a6db6327bb089e9",
    mkNNModelInfo (Some [("units", AInt 1)]) 0 None None None);
   ("model_12ac301f2e99f999ea1cc52d9e81801b30661128",
    mkNNModelInfo (Some [("units", AInt 2)]) 0 None None None)].

Definition toy_instance : @NNGA toy_backend := toy_nnga None (PopDict toy_pop_2) grid_two.

(** The default call [NNGA()] and calls with other metric names. *)
Definition toy_args_metrics (grid : Grid) (n : Z) (reg clf : string)
  : @InitArgs toy_backend :=
  {| arg_param_grid := grid; arg_selection_rate := toy_float 75;
     arg_random_rate := toy_float 5; arg_mutation_rate := toy_float 5;
     arg_elitism_rate := toy_float 5; arg_pop_size := n;
     arg_reg_metric := reg; arg_clf_metric := clf; arg_pbar := true |}.

(** Two parents and a child bound from outside to the dict objects 0, 1
    and 2. *)
Definition ns_with_family : @Namespace toy_backend :=
  ns_set "mother" (GDict 0)
    (ns_set "father" (GDict 1) (ns_set "child" (GDict 2) module_ns)).

Definition family_heap (mother father child : ParamDict) : Heap :=
  heap_set 0 mother (heap_set 1 father (heap_set 2 child heap0)).

(** [child] bound to the very dict object [mother] is bound to. *)
Definition ns_child_is_mother : @Namespace toy_backend :=
  ns_set "mother" (GDict 0)
    (ns_set "father" (GDict 1) (ns_set "child" (GDict 0) module_ns)).

(** A generator whose first draw picks the second element of a pair. *)
Definition rng1 : Rng := fun n => S n.

(** Lower-case hexadecimal digits. *)
Definition is_hex_digit (c : ascii) : bool :=
  PyRepr.contains c "0123456789abcdef".

Fixpoint string_forall (f : ascii -> bool) (s : string) : bool :=
  match s with
  | EmptyString => true
  | String c s' => f c && string_forall f s'
  end.

(** ** Predicates used in the statements *)

(** The value of lines 101-114 for the keyword arguments [p]. *)
Definition score_value `{B : MLBackend} (self : NNGA) (sc : scorer)
    (X_train X_val : Features) (y_train y_val : Labels) (p : ParamDict)
  : result pyfloat :=
  y_pred <- predict_for self X_train X_val y_train p ;;
  call_scorer sc y_val y_pred.

(** The loop body runs to its end on [m]: [m] has keyword arguments and
    the four library calls made for it return. *)
Definition body_returns `{B : MLBackend} (self : NNGA) (sc : scorer)
    (X_train X_val : Features) (y_train y_val : Labels) (m : NNModelInfo) : Prop :=
  exists p s, params m = Some p
              /\ score_value self sc X_train X_val y_train y_val p = Ok s.

(** What a pass of the loop body that runs to its end leaves of an
    individual, and the library calls it makes. *)
Definition score_of `{B : MLBackend} (self : NNGA) (sc : scorer)
    (X_train X_val : Features) (y_train y_val : Labels) (m : NNModelInfo)
  : NNModelInfo :=
  match params m with
  | Some p =>
      match score_value self sc X_train X_val y_train y_val p with
      | Ok s => set_score m s
      | Err _ => m
      end
  | None => m
  end.

Definition calls_for `{B : MLBackend} (self : NNGA) (sc : scorer)
    (X_train X_val : Features) (y_train y_val : Labels) (m : NNModelInfo)
  : list event :=
  match params m with
  | Some p =>
      match predict_for self X_train X_val y_train p with
      | Ok y_pred => [EvConstruct p; EvFit X_train y_train; EvPredict X_val;
                      EvScore sc y_val y_pred]
      | Err _ => []
      end
  | None => []
  end.


(** The parents a child gene can come from. *)
Definition gene_of_parents (mother father : ParamDict) (k : string) (v : allele) : Prop :=
  dict_get k mother = Some v \/ dict_get k father = Some v.

(** The three names of line 120 are bound to dict objects. *)
Definition family `{B : MLBackend} (ns : Namespace) (om ofa oc : nat) : Prop :=
  ns "mother" = Some (GDict om)
  /\ ns "father" = Some (GDict ofa)
  /\ ns "child" = Some (GDict oc).

(** The dicts during the breeding step, against the heap [h0] it started
    from: only the object [oc] has been written; for every key of [K] both
    parents hold a value that a parent held at the start; the object [oc]
    has its entries outside [K] as at the start. The three objects need not
    be distinct. *)
Definition breeding_inv (K : list string) (om ofa oc : nat) (h0 h : Heap) : Prop :=
  (forall o, o <> oc -> h o = h0 o)
  /\ (forall k, In k K ->
        exists a, dict_get k (h om) = Some a
                  /\ gene_of_parents (h0 om) (h0 ofa) k a)
  /\ (forall k, In k K ->
        exists b, dict_get k (h ofa) = Some b
                  /\ gene_of_parents (h0 om) (h0 ofa) k b)
  /\ (forall k, ~ In k K -> dict_get k (h oc) = dict_get k (h0 oc)).

(** The object [oc] holds for [k] a value that a parent held at the start. *)
Definition bred (om ofa oc : nat) (h0 h : Heap) (k : string) : Prop :=
  exists v, dict_get k (h oc) = Some v /\ gene_of_parents (h0 om) (h0 ofa) k v.

(** A value whose type is [str] or [int]. *)
Definition str_or_int (a : allele) : Prop :=
  match a with
  | ABool _ => False
  | _ => True
  end.

(** No two filled slots hold equal mappings. *)
Definition distinct_slots (param_pop : list (option ParamDict)) : Prop :=
  forall (i j : nat) (p q : ParamDict),
    (i < j)%nat ->
    param_pop !! i = Some (Some p) ->
    param_pop !! j = Some (Some q) ->
    dict_eqb p q = false.

(** Every filled slot has an index below [k]. *)
Definition filled_below (k : nat) (param_pop : list (option ParamDict)) : Prop :=
  forall (j : nat) (q : ParamDict), param_pop !! j = Some (Some q) -> (j < k)%nat.

(** A mapping drawn from [grid]: the keys of the grid in their order, each
    with one of the values the grid allows for it. *)
Definition in_grid (grid : Grid) (p : ParamDict) : Prop :=
  keys p = keys grid
  /\ forall k v, In (k, v) p -> exists g, In (k, g) grid /\ In v g.

(** An individual as line 87 creates it. *)
Definition fresh_individual `{B : MLBackend} (m : NNModelInfo) : Prop :=
  gen m = 0 /\ score m = None /\ parents m = None /\ children m = None.

(** * Properties *)

(** ** The runtime model against known values *)

Example sha1_abc : SHA1.hexdigest "abc" = "a9993e364706816aba3e25717850c26c9cd0d89d".
Proof. vm_compute. reflexivity. Qed.

Example sha1_empty :
  SHA1.hexdigest EmptyString = "da39a3ee5e6b4b0d3255bfef95601890afd80709".
Proof. vm_compute. reflexivity. Qed.

Example sha1_two_blocks :
  SHA1.hexdigest "abcdbcdecdefdefgefghfghighijhijkijkljklmklmnlmnomnopnopq"
  = "84983e441c3bd26ebaae4aa1f95129e5e54670f1".
Proof. vm_compute. reflexivity. Qed.

(** A code point above 127 is hashed as its two UTF-8 bytes. *)
Example sha1_e_acute :
  SHA1.hexdigest (String (ascii_of_N 233) EmptyString)
  = "bf15be717ac1b080b4f1c456692825891ff5073d".
Proof. vm_compute. reflexivity. Qed.

Example str_OrderedDict_ab :
  PyRepr.str_OrderedDict [("a", AInt 1); ("b", AStr "relu"); ("c", AInt (-12)); ("d", AInt 0)]
  = "OrderedDict([('a', 1), ('b', 'relu'), ('c', -12), ('d', 0)])".
Proof. vm_compute. reflexivity. Qed.

Example str_OrderedDict_bool :
  PyRepr.str_OrderedDict [("units", ABool true); ("b", ABool false)]
  = "OrderedDict([('units', True), ('b', False)])".
Proof. vm_compute. reflexivity. Qed.

(** The no-break space and a control character are escaped, a printable
    letter above 127 is kept. *)
Example repr_str_latin1 :
  PyRepr.repr_str (String (ascii_of_N 160) (String (ascii_of_N 133)
                     (String (ascii_of_N 233) EmptyString)))
  = String PyRepr.squote
      (String PyRepr.bslash ("xa0" ++ String PyRepr.bslash ("x85"
         ++ String (ascii_of_N 233) (String PyRepr.squote EmptyString)))).
Proof. vm_compute. reflexivity. Qed.

(** None of the six free names is bound by the module or the builtins. *)
Lemma free_names_unbound :
  forallb (fun x => negb (bound_by_module x)) free_names = true.
Proof. vm_compute. reflexivity. Qed.

Lemma random_select_unbound : bound_by_module "random_select" = false.
Proof. vm_compute. reflexivity. Qed.


Lemma mother_unbound : bound_by_module "mother" = false.
Proof. vm_compute. reflexivity. Qed.

Lemma child_unbound : bound_by_module "child" = false.
Proof. vm_compute. reflexivity. Qed.

(** ** The constructor *)

(** C4: in the namespace the module defines, [NNGA(...)] raises [NameError]
    for every choice of arguments (the read of [random_select] at line 58
    comes before the population is built), so the constructor never
    returns an instance. *)
Theorem init_raises_NameError `{B : MLBackend} (a : InitArgs) (rng : Rng) :
  __init__ module_ns a rng = Err NameError.
Proof.
  unfold __init__, load_global, module_ns.
  rewrite random_select_unbound. reflexivity.
Qed.

(** ** fit *)




(** ** evolve *)

(** C9: when [self.pop] is a non-empty dict, [evolve] raises
    [AttributeError] at line 99 (iterating the dict yields its [str] keys,
    which have no [gen]); no model has been constructed, fitted or scored and
    nothing else has changed. On an empty dict the evaluation loop has
    nothing to run on. *)
Theorem evolve_on_dict_population `{B : MLBackend} (ns : Namespace) (h : Heap)
    (self : NNGA) (g : Z) (X_train X_val : Features) (y_train y_val : Labels)
    (rng : Rng) (d : list (string * NNModelInfo)) :
  pop self = PopDict d ->
  (d <> [] ->
   evolve ns h self g X_train X_val y_train y_val rng
   = mkEvolveRun [] [] ns h rng (Err AttributeError))
  /\ run_trace (evolve ns h self g X_train X_val y_train y_val rng) = []
  /\ run_gen_pop (evolve ns h self g X_train X_val y_train y_val rng) = [].
Proof.
  intros Hpop. unfold evolve. rewrite Hpop.
  destruct d as [|[k m] d']; simpl.
  - split; [congruence|].
    destruct (breed ns (param_grid self) (h, rng)) as [[h' rng'] r]; auto.
  - auto.
Qed.

Lemma evolve_on_dict_population_witness :
  @evolve toy_backend module_ns heap0
    (toy_nnga (Some "regression") (PopDict [("model_x", ind_a)]) default_param_grid)
    0 1 2 3 4 rng0
  = mkEvolveRun [] [] module_ns heap0 rng0 (Err AttributeError).
Proof.
  refine (proj1 (@evolve_on_dict_population toy_backend module_ns heap0
                   (toy_nnga (Some "regression") (PopDict [("model_x", ind_a)]) default_param_grid)
                   0 1 2 3 4 rng0 [("model_x", ind_a)] eq_refl) _).
  discriminate.
Defined.

(** C8: in the namespace the module defines, a call of [evolve] whose
    evaluation loop completes and whose grid has a parameter raises
    [NameError] at line 120 (the read of [mother] comes first); the
    namespace and the dicts are unchanged, so no [child] has been
    produced. *)
Theorem evolve_breeding_raises_NameError `{B : MLBackend} (h : Heap) (self : NNGA)
    (g : Z) (X_train X_val : Features) (y_train y_val : Labels) (rng : Rng)
    (gen_pop gen_pop' : list NNModelInfo) (tr : list event) :
  gen_pop_of g (py_iter (pop self)) = Ok gen_pop ->
  evaluate self X_train X_val y_train y_val gen_pop [] = (gen_pop', tr, Ok tt) ->
  param_grid self <> [] ->
  evolve module_ns h self g X_train X_val y_train y_val rng
  = mkEvolveRun gen_pop' tr module_ns h rng (Err NameError)
  /\ run_ns (evolve module_ns h self g X_train X_val y_train y_val rng) "child" = None.
Proof.
  intros Hgen Heval Hgrid.
  assert (E : evolve module_ns h self g X_train X_val y_train y_val rng
              = mkEvolveRun gen_pop' tr module_ns h rng (Err NameError)).
  { unfold evolve. rewrite Hgen, Heval.
    destruct (param_grid self) as [|[k vs] grid']; [congruence|].
    unfold breed. cbn [seq for_each keys List.map fst].
    unfold breed_gene at 1, load_global at 1, module_ns at 1.
    rewrite mother_unbound. reflexivity. }
  split; [exact E|].
  rewrite E. cbn [run_ns]. unfold module_ns. rewrite child_unbound. reflexivity.
Qed.

Lemma evolve_breeding_raises_NameError_witness :
  @evolve toy_backend module_ns heap0
    (toy_nnga (Some "regression") (PopList [ind_a; ind_old]) default_param_grid)
    0 1 2 3 4 rng0
  = @mkEvolveRun toy_backend [set_score ind_a (toy_float (-2))]
      [EvConstruct [("units", AInt 3)]; @EvFit toy_backend 1 3;
       @EvPredict toy_backend 2;
       @EvScore toy_backend neg_mean_absolute_error 4 6]
      module_ns heap0 rng0 (Err NameError).
Proof.
  refine (proj1 (@evolve_breeding_raises_NameError toy_backend heap0
                   (toy_nnga (Some "regression") (PopList [ind_a; ind_old]) default_param_grid)
                   0 1 2 3 4 rng0 [ind_a] _ _ _ _ _)).
  - reflexivity.
  - reflexivity.
  - discriminate.
Defined.

(** A ref computed over non-ASCII text. *)
Example ref_latin1 :
  @ref toy_backend
    (mkNNModelInfo
       (Some [("caf" ++ String (ascii_of_N 233) EmptyString,
               AStr ("na" ++ String (ascii_of_N 160)
                       (String (ascii_of_N 133) "ve")))]) 0 None None None)
  = Ok "model_852cdc0aee5135d5339c868b629430b2207c4ddc".
Proof. vm_compute. reflexivity. Qed.

(** *** The mode test *)

Lemma mode_is_true (m : option string) (name : string) :
  mode_is m name = true <-> m = Some name.
Proof.
  destruct m as [s|]; simpl.
  - rewrite String.eqb_eq. split; congruence.
  - split; discriminate.
Qed.

Lemma mode_is_false (m : option string) (name : string) :
  mode_is m name = false <-> m <> Some name.
Proof.
  rewrite <- mode_is_true. destruct (mode_is m name); split; congruence.
Qed.


Lemma select_scorer_supported `{B : MLBackend} (self : NNGA) (sc : scorer) :
  (mode self = Some AMM_REG_NAME /\ sc = reg_scorer self)
  \/ (mode self = Some AMM_CLF_NAME /\ AMM_CLF_NAME <> AMM_REG_NAME
      /\ sc = clf_scorer self) ->
  select_scorer self = Ok sc.
Proof.
  unfold select_scorer. intros [[Hm ->]|(Hm & Hne & ->)].
  - apply mode_is_true in Hm. rewrite Hm. reflexivity.
  - assert (Hreg : mode_is (mode self) AMM_REG_NAME = false).
    { apply mode_is_false. rewrite Hm. congruence. }
    apply mode_is_true in Hm. rewrite Hreg, Hm. reflexivity.
Qed.

(** *** The record of library calls *)

Lemma In_record {A : Type} `{B : MLBackend} (tr : list event) (ev : event)
    (r : result A) (x : event) :
  In x tr -> In x (record tr ev r).
Proof.
  intros H. unfold record. destruct r; apply in_or_app; left; exact H.
Qed.

Lemma record_Ok {A : Type} `{B : MLBackend} (tr : list event) (ev : event) (a : A) :
  record tr ev (Ok a) = (tr ++ [ev])%list.
Proof. reflexivity. Qed.

Lemma record_Err_In {A : Type} `{B : MLBackend} (tr : list event) (ev : event)
    (e : exn) :
  In (EvRaise e) (record tr ev (@Err A e)).
Proof. unfold record. apply in_or_app. right. right. left. reflexivity. Qed.



(** *** Where [ValueError] can come from *)











(** *** The evaluation loop in a supported mode *)

Lemma score_individual_returns `{B : MLBackend} (self : NNGA) (sc : scorer)
    (X_train X_val : Features) (y_train y_val : Labels) (m : NNModelInfo)
    (p : ParamDict) (y_pred : Labels) (s : pyfloat) (tr : list event) :
  select_scorer self = Ok sc ->
  params m = Some p ->
  predict_for self X_train X_val y_train p = Ok y_pred ->
  call_scorer sc y_val y_pred = Ok s ->
  score_individual self X_train X_val y_train y_val m tr
  = (set_score m s,
     (tr ++ [EvConstruct p; EvFit X_train y_train; EvPredict X_val;
             EvScore sc y_val y_pred])%list,
     Ok tt).
Proof.
  intros Hsel Hp Hpred Hs. unfold predict_for in Hpred.
  destruct (instantiate (model_class self) p) as [model|e] eqn:H1;
    simpl in Hpred; [|discriminate].
  destruct (model_fit model X_train y_train) as [fitted|e] eqn:H2;
    simpl in Hpred; [|discriminate].
  unfold score_individual. rewrite Hp, H1, H2, Hpred, Hsel, Hs. simpl.
  rewrite <- !app_assoc. reflexivity.
Qed.


Lemma score_individual_body_returns `{B : MLBackend} (self : NNGA) (sc : scorer)
    (X_train X_val : Features) (y_train y_val : Labels) (m : NNModelInfo)
    (tr : list event) :
  select_scorer self = Ok sc ->
  body_returns self sc X_train X_val y_train y_val m ->
  score_individual self X_train X_val y_train y_val m tr
  = (score_of self sc X_train X_val y_train y_val m,
     (tr ++ calls_for self sc X_train X_val y_train y_val m)%list,
     Ok tt).
Proof.
  intros Hsel (p & s & Hp & Hs).
  unfold score_of, calls_for. rewrite Hp, Hs.
  unfold score_value in Hs.
  destruct (predict_for self X_train X_val y_train p) as [y_pred|e] eqn:Hpred;
    simpl in Hs; [|discriminate].
  apply (score_individual_returns self sc X_train X_val y_train y_val m p y_pred s tr);
    assumption.
Qed.


(** The loop on a list whose first part is evaluated to the end. *)
Lemma evaluate_app `{B : MLBackend} (self : NNGA) (sc : scorer)
    (X_train X_val : Features) (y_train y_val : Labels)
    (pre rest : list NNModelInfo) (tr : list event) :
  select_scorer self = Ok sc ->
  Forall (body_returns self sc X_train X_val y_train y_val) pre ->
  evaluate self X_train X_val y_train y_val (pre ++ rest) tr
  = match evaluate self X_train X_val y_train y_val rest
            (tr ++ flat_map (calls_for self sc X_train X_val y_train y_val) pre) with
    | (rest', tr', r) =>
        ((List.map (score_of self sc X_train X_val y_train y_val) pre ++ rest')%list,
         tr', r)
    end.
Proof.
  intros Hsel Hall. revert tr. induction Hall as [|x l Hx Hall IH]; intros tr.
  - cbn [app List.map flat_map]. rewrite app_nil_r.
    destruct (evaluate self X_train X_val y_train y_val rest tr) as [[rest' tr'] r].
    reflexivity.
  - cbn [app evaluate].
    rewrite (score_individual_body_returns self sc X_train X_val y_train y_val x tr
               Hsel Hx).
    rewrite IH. cbn [List.map flat_map]. rewrite <- app_assoc.
    destruct (evaluate self X_train X_val y_train y_val rest _) as [[rest' tr'] r].
    reflexivity.
Qed.




(** ** The ranking loop of fit *)

Lemma In_insert_grade `{B : MLBackend} (x a : Grade) (l : list Grade) :
  In x (insert_grade a l) <-> x = a \/ In x l.
Proof.
  induction l as [|y l IH]; simpl.
  - split; intros [H|H]; auto; contradiction.
  - destruct (float_ltb (ndarray_mean (fst a)) (ndarray_mean (fst y))); simpl.
    + rewrite IH. tauto.
    + split; intros H; destruct H as [H|H]; auto.
Qed.

Lemma In_sorted_by_mean_desc `{B : MLBackend} (x : Grade) (l : list Grade) :
  In x (sorted_by_mean_desc l) <-> In x l.
Proof.
  unfold sorted_by_mean_desc. induction l as [|a l IH]; simpl; [tauto|].
  rewrite In_insert_grade, IH. split; intros [H|H]; auto.
Qed.

Lemma no_nan_spec `{B : MLBackend} (sc : list pyfloat) :
  no_nan sc = true <-> forall r, In r sc -> isnan r = false.
Proof.
  unfold no_nan. rewrite forallb_forall.
  split; intros H r Hr; specialize (H r Hr); destruct (isnan r); simpl in *; congruence.
Qed.

Lemma In_grade_all `{B : MLBackend} (models : list (Model * ParamDict))
    (X : Features) (y : Labels) :
  forall (all : list Grade) (sc : list pyfloat) (d : ParamDict),
    grade_all models X y = Ok all ->
    (In (sc, d) all
     <-> exists m, In (m, d) models /\ cross_val_score m X y = Ok sc).
Proof.
  induction models as [|[m0 d0] models IH]; intros all sc d H; simpl in H.
  - inversion H; subst. simpl. split; [intros [] | intros [m [[] _]]].
  - destruct (cross_val_score m0 X y) as [sc0|e] eqn:H0; simpl in H; [|discriminate].
    destruct (grade_all models X y) as [rest|e] eqn:Hr; simpl in H; [|discriminate].
    inversion H; subst. simpl. rewrite (IH rest sc d eq_refl). split.
    + intros [E|[m [Hin Hm]]].
      * inversion E; subst. exists m0. auto.
      * exists m. auto.
    + intros [m [[E|Hin] Hm]].
      * inversion E; subst. left. congruence.
      * right. exists m. auto.
Qed.

Lemma In_grade_without_nan `{B : MLBackend} (models : list (Model * ParamDict))
    (X : Features) (y : Labels) :
  forall (kept : list Grade) (sc : list pyfloat) (d : ParamDict),
    grade_without_nan models X y = Ok kept ->
    (In (sc, d) kept
     <-> exists m, In (m, d) models /\ cross_val_score m X y = Ok sc
                   /\ forall r, In r sc -> isnan r = false).
Proof.
  induction models as [|[m0 d0] models IH]; intros kept sc d H; simpl in H.
  - inversion H; subst. simpl. split; [intros [] | intros [m [[] _]]].
  - destruct (cross_val_score m0 X y) as [sc0|e] eqn:H0; simpl in H; [|discriminate].
    destruct (grade_without_nan models X y) as [rest|e] eqn:Hr; simpl in H;
      [|discriminate].
    inversion H; subst. clear H. specialize (IH rest sc d eq_refl).
    destruct (no_nan sc0) eqn:Hnan.
    + simpl. rewrite IH. split.
      * intros [E|[m (Hin & Hm & Hn)]].
        -- inversion E; subst. exists m0. repeat split; auto.
           apply no_nan_spec. exact Hnan.
        -- exists m. auto.
      * intros [m ([E|Hin] & Hm & Hn)].
        -- inversion E; subst. left. congruence.
        -- right. exists m. auto.
    + rewrite IH. simpl. split.
      * intros [m (Hin & Hm & Hn)]. exists m. auto.
      * intros [m ([E|Hin] & Hm & Hn)].
        -- inversion E; subst. rewrite H0 in Hm. inversion Hm; subst.
           apply no_nan_spec in Hn. congruence.
        -- exists m. auto.
Qed.

(** C7 as stated fails: [fit] has determined the mode "regression" from the
    target column, and the score vector of the second model, which holds a
    NaN, is left out of the ranking all the same, because the first model
    is a classifier. *)
Lemma fit_regression_mode_drops_nan :
  @fit toy_backend ns_with_models toy_rest (toy_nnga None (PopList []) []) toy_df "y" rng0
  = (toy_nnga (Some "regression") (PopList []) [],
     Ok [[("units", AInt 8)]; [("units", AInt 3)]])
  /\ @cross_val_score toy_backend (clf_model []) 2 2 = Ok [None]
  /\ @model_mode toy_backend (clf_model [("units", AInt 3)]) = Ok (Some "classification").
Proof. repeat split. Qed.

(** C7, as the code has it: once [models] is bound to a non-empty list and
    lines 128-133 and the cross-validation calls return, [fit] hands the
    ranked grades to lines 151-173. The branch is chosen by the mode of the
    first model, whatever mode [fit] has determined: when it is the
    regression name the grades are the score vectors of all models;
    otherwise (classification included) they are the score vectors with no
    NaN entry. *)
Theorem fit_grades_drop_nan_in_classification `{B : MLBackend} (ns : Namespace)
    (rest : FitRest) (self : NNGA) (df : DataFrame) (target : string) (rng : Rng)
    (m0 : Model) (d0 : ParamDict) (tl : list (Model * ParamDict))
    (y : Labels) (X : Features) (m : string)
    (split : (Features * Features) * (Labels * Labels))
    (mode0 : option string) (grades : list Grade) :
  ns "models" = Some (GModels ((m0, d0) :: tl)) ->
  df_target_values df target = Ok y ->
  df_drop_values df target = Ok X ->
  regression_or_classification df target = Ok m ->
  train_test_split X y = Ok split ->
  model_mode m0 = Ok mode0 ->
  cv_grades ((m0, d0) :: tl) X y = Ok grades ->
  fit ns rest self df target rng = rest ns (set_mode self (Some m)) grades rng
  /\ (mode0 = Some AMM_REG_NAME ->
      forall sc d,
        In (sc, d) grades
        <-> exists mdl, In (mdl, d) ((m0, d0) :: tl) /\ cross_val_score mdl X y = Ok sc)
  /\ (mode0 <> Some AMM_REG_NAME ->
      forall sc d,
        In (sc, d) grades
        <-> exists mdl, In (mdl, d) ((m0, d0) :: tl) /\ cross_val_score mdl X y = Ok sc
                        /\ forall r, In r sc -> isnan r = false).
Proof.
  intros Hns Hy HX Hm Hs Hmode Hcv.
  split.
  { unfold fit, load_global. rewrite Hy, HX, Hm, Hs, Hns, Hcv. reflexivity. }
  unfold cv_grades in Hcv. rewrite Hmode in Hcv. cbn [bind] in Hcv.
  destruct (mode_is mode0 AMM_REG_NAME) eqn:Hreg.
  - destruct (grade_all ((m0, d0) :: tl) X y) as [all|e] eqn:Hall;
      cbn [bind] in Hcv; [|discriminate].
    inversion Hcv; subst grades. split.
    + intros _ sc d.
      etransitivity; [apply In_sorted_by_mean_desc | apply In_grade_all; exact Hall].
    + intros Hne. apply mode_is_true in Hreg. contradiction.
  - destruct (grade_without_nan ((m0, d0) :: tl) X y) as [kept|e] eqn:Hkept;
      cbn [bind] in Hcv; [|discriminate].
    inversion Hcv; subst grades. split.
    + intros He. apply mode_is_false in Hreg. contradiction.
    + intros _ sc d.
      etransitivity;
        [apply In_sorted_by_mean_desc | apply In_grade_without_nan; exact Hkept].
Qed.

Lemma fit_grades_drop_nan_in_classification_witness :
  @fit toy_backend ns_with_models toy_rest (toy_nnga None (PopList []) []) toy_df "y" rng0
  = toy_rest ns_with_models (toy_nnga (Some "regression") (PopList []) [])
      [([toy_float 12], [("units", AInt 8)]); ([toy_float 7], [("units", AInt 3)])] rng0
  /\ (forall sc d,
        In (sc, d) [([toy_float 12], [("units", AInt 8)]);
                    ([toy_float 7], [("units", AInt 3)])]
        <-> exists mdl, In (mdl, d) toy_models
                        /\ @cross_val_score toy_backend mdl 2 2 = Ok sc
                        /\ forall r, In r sc -> @isnan toy_backend r = false).
Proof.
  destruct (@fit_grades_drop_nan_in_classification toy_backend ns_with_models toy_rest
              (toy_nnga None (PopList []) []) toy_df "y" rng0
              (clf_model [("units", AInt 3)]) [("units", AInt 3)]
              (List.tl toy_models) 2 2 "regression" ((2, 2), (2, 2))
              (Some "classification")
              [([toy_float 12], [("units", AInt 8)]); ([toy_float 7], [("units", AInt 3)])]
              eq_refl eq_refl eq_refl eq_refl eq_refl eq_refl eq_refl)
    as (Hfit & _ & Hclf).
  split; [exact Hfit|]. apply Hclf. discriminate.
Defined.

(** ** The population initializer *)

Lemma already_sampled_false (params : ParamDict) (param_pop : list (option ParamDict)) :
  already_sampled params param_pop = false ->
  forall (i : nat) (q : ParamDict),
    param_pop !! i = Some (Some q) -> dict_eqb q params = false.
Proof.
  unfold already_sampled.
  induction param_pop as [|x l IH]; intros Hex i q Hi.
  - destruct i; discriminate.
  - simpl in Hex. apply orb_false_iff in Hex as [Hx Hl].
    destruct i as [|i]; simpl in Hi.
    + inversion Hi; subst. exact Hx.
    + eapply IH; eauto.
Qed.

Lemma distinct_slots_insert (k : nat) (params : ParamDict)
    (param_pop : list (option ParamDict)) :
  filled_below k param_pop ->
  distinct_slots param_pop ->
  already_sampled params param_pop = false ->
  distinct_slots (<[k := Some params]> param_pop).
Proof.
  intros Hbelow Hdist Hfresh i j p q Hij Hi Hj.
  destruct (decide (i = k)) as [->|Hik].
  - rewrite list_lookup_insert_ne in Hj by lia.
    apply Hbelow in Hj. lia.
  - rewrite list_lookup_insert_ne in Hi by auto.
    destruct (decide (j = k)) as [->|Hjk].
    + assert (Hlt : (k < length param_pop)%nat).
      { apply lookup_lt_Some in Hj. rewrite length_insert in Hj. exact Hj. }
      rewrite list_lookup_insert_eq in Hj by exact Hlt.
      inversion Hj; subst.
      eapply already_sampled_false; eauto.
    + rewrite list_lookup_insert_ne in Hj by auto.
      eapply Hdist; eauto.
Qed.

Lemma filled_below_insert (k : nat) (params : ParamDict)
    (param_pop : list (option ParamDict)) :
  filled_below k param_pop ->
  filled_below (S k) (<[k := Some params]> param_pop).
Proof.
  intros Hbelow j q Hj.
  destruct (decide (j = k)) as [->|Hjk]; [lia|].
  rewrite list_lookup_insert_ne in Hj by auto.
  apply Hbelow in Hj. lia.
Qed.

(** The loop keeps the number of slots and the distinctness of the filled
    ones. *)
Lemma param_pop_loop_inv (grid : Grid) :
  forall (m k : nat) (param_pop : list (option ParamDict)) (rng : Rng)
         (param_pop' : list (option ParamDict)) (rng' : Rng),
    param_pop_loop grid (seq k m) param_pop rng = Ok (param_pop', rng') ->
    filled_below k param_pop ->
    distinct_slots param_pop ->
    length param_pop' = length param_pop /\ distinct_slots param_pop'.
Proof.
  induction m as [|m IH]; intros k pp rng pp' rng' Hloop Hbelow Hdist.
  - simpl in Hloop. inversion Hloop; subst. auto.
  - cbn [seq param_pop_loop] in Hloop.
    destruct (sample_params grid rng) as [[params rng1]|e]; simpl in Hloop;
      [|discriminate].
    destruct (already_sampled params pp) eqn:Hfresh.
    + apply (IH (S k) pp rng1 pp' rng' Hloop); [|exact Hdist].
      intros j q Hj. apply Hbelow in Hj. lia.
    + destruct (IH (S k) _ rng1 pp' rng' Hloop) as [Hlen Hd].
      * apply filled_below_insert; exact Hbelow.
      * apply distinct_slots_insert; assumption.
      * rewrite length_insert in Hlen. auto.
Qed.

Lemma repeat_None_lookup (n j : nat) (q : ParamDict) :
  repeat (@None ParamDict) n !! j <> Some (Some q).
Proof.
  revert j. induction n as [|n IH]; intros j; simpl.
  - destruct j; discriminate.
  - destruct j as [|j]; simpl; [discriminate | apply IH].
Qed.

Lemma init_param_pop_inv (grid : Grid) (pop_size : Z) (rng : Rng)
    (param_pop : list (option ParamDict)) (rng' : Rng) :
  init_param_pop grid pop_size rng = Ok (param_pop, rng') ->
  length param_pop = Z.to_nat pop_size /\ distinct_slots param_pop.
Proof.
  unfold init_param_pop. intros Hloop.
  apply param_pop_loop_inv in Hloop as [Hlen Hd].
  - rewrite repeat_length in Hlen. auto.
  - intros j q Hj. exfalso. exact (repeat_None_lookup _ _ _ Hj).
  - intros i j p q _ Hi _. exfalso. exact (repeat_None_lookup _ _ _ Hi).
Qed.

(** C6 as stated fails: the check of line 82 is not vacuous. With one
    allowed value per parameter and two slots, the second sample is compared
    with the first slot, which is filled, is found equal, and is skipped;
    the second slot stays [None]. *)
Lemma distinctness_check_sees_filled_slot :
  init_param_pop grid_one 2 rng0
  = Ok ([Some params_relu; None], rng_next (rng_next rng0))
  /\ sample_params grid_one (rng_next rng0) = Ok (params_relu, rng_next (rng_next rng0))
  /\ already_sampled params_relu [Some params_relu; None] = true.
Proof. repeat split. Qed.

(** C6, as the code has it: the initializer returns [pop_size] slots; the
    check compares every fresh sample with the slots filled so far, so no
    two filled slots hold equal mappings; a sample that is already present
    is skipped and its slot stays [None]. *)
Theorem init_param_pop_filled_slots_distinct (grid : Grid) (pop_size : Z) (rng : Rng)
    (param_pop : list (option ParamDict)) (rng' : Rng) :
  init_param_pop grid pop_size rng = Ok (param_pop, rng') ->
  length param_pop = Z.to_nat pop_size
  /\ (forall (i j : nat) (p q : ParamDict),
        (i < j)%nat ->
        param_pop !! i = Some (Some p) ->
        param_pop !! j = Some (Some q) ->
        dict_eqb p q = false)
  /\ (forall (k : nat) (slots : list (option ParamDict)) (r : Rng)
             (params : ParamDict) (r1 : Rng) (idxs : list nat),
        sample_params grid r = Ok (params, r1) ->
        already_sampled params slots = true ->
        param_pop_loop grid (k :: idxs) slots r = param_pop_loop grid idxs slots r1).
Proof.
  intros Hinit. apply init_param_pop_inv in Hinit as [Hlen Hd].
  split; [exact Hlen|]. split; [exact Hd|].
  intros k slots r params r1 idxs Hs Hdup.
  cbn [param_pop_loop]. rewrite Hs. simpl. rewrite Hdup. reflexivity.
Qed.

Lemma init_param_pop_filled_slots_distinct_witness :
  length [Some [("units", AInt 1)]; Some [("units", AInt 2)]; None] = Z.to_nat 3
  /\ dict_eqb [("units", AInt 1)] [("units", AInt 2)] = false.
Proof.
  destruct (init_param_pop_filled_slots_distinct grid_two 3 rng0
              [Some [("units", AInt 1)]; Some [("units", AInt 2)]; None]
              (rng_next (rng_next (rng_next rng0))) eq_refl) as (Hlen & Hd & _).
  split; [exact Hlen|].
  apply (Hd 0%nat 1%nat); [lia | reflexivity | reflexivity].
Defined.

(** C10: whenever the constructor returns an instance, its [pop_size]
    attribute is 15 whatever the [pop_size] argument was, while the list of
    sampled slots from which the population is built has as many slots as
    the argument says. *)
Theorem pop_size_attribute_ignores_argument `{B : MLBackend} (ns : Namespace)
    (a : InitArgs) (rng : Rng) (self : NNGA) (rng' : Rng) :
  __init__ ns a rng = Ok (self, rng') ->
  pop_size self = 15
  /\ exists (param_pop : list (option ParamDict)) (d : list (string * NNModelInfo)),
       init_param_pop (arg_param_grid a) (arg_pop_size a) rng = Ok (param_pop, rng')
       /\ length param_pop = Z.to_nat (arg_pop_size a)
       /\ pop_of_nns (List.map (fun p => mkNNModelInfo p 0 None None None) param_pop) []
          = Ok d
       /\ pop self = PopDict d.
Proof.
  unfold __init__. intros H.
  destruct (load_global ns "random_select") as [rs|e]; simpl in H; [|discriminate].
  destruct (getitem reg_metrics (arg_reg_metric a)) as [reg|e]; simpl in H;
    [|discriminate].
  destruct (getitem clf_metrics (arg_clf_metric a)) as [clf|e]; simpl in H;
    [|discriminate].
  destruct (init_param_pop (arg_param_grid a) (arg_pop_size a) rng)
    as [[param_pop rng1]|e] eqn:Hpp; simpl in H; [|discriminate].
  destruct (pop_of_nns _ []) as [d|e] eqn:Hd; simpl in H; [|discriminate].
  inversion H; subst. simpl. split; [reflexivity|].
  exists param_pop, d. repeat split; auto.
  apply init_param_pop_inv in Hpp. tauto.
Qed.

Lemma pop_size_attribute_ignores_argument_witness :
  pop_size toy_instance = 15
  /\ exists (param_pop : list (option ParamDict))
            (d : list (string * @NNModelInfo toy_backend)),
       init_param_pop grid_two 2 rng0 = Ok (param_pop, rng_next (rng_next rng0))
       /\ length param_pop = Z.to_nat 2
       /\ pop_of_nns (List.map (fun p => mkNNModelInfo p 0 None None None) param_pop) []
          = Ok d
       /\ pop toy_instance = PopDict d.
Proof.
  apply (@pop_size_attribute_ignores_argument toy_backend ns_with_random_select
           (toy_args grid_two 2) rng0 toy_instance (rng_next (rng_next rng0))).
  vm_compute. reflexivity.
Defined.

(** ** The identity hash *)






(** * Further properties of the code *)

(** ** Sampling one candidate (line 81) *)

Lemma random_choice_In {A : Type} (g : list A) (rng : Rng) (x : A) (rng' : Rng) :
  random_choice g rng = Ok (x, rng') -> In x g /\ rng' = rng_next rng.
Proof.
  unfold random_choice. destruct (g !! _) as [y|] eqn:E; [|discriminate].
  intros H. inversion H; subst. split; [|reflexivity].
  apply list_elem_of_In. eapply list_elem_of_lookup_2. exact E.
Qed.

Lemma random_choice_empty {A : Type} (rng : Rng) :
  random_choice (@nil A) rng = Err IndexError.
Proof. reflexivity. Qed.

Lemma random_choice_nonempty {A : Type} (g : list A) (rng : Rng) :
  g <> [] -> exists x, random_choice g rng = Ok (x, rng_next rng).
Proof.
  intros Hne. unfold random_choice.
  assert (Hlt : (rng O mod length g < length g)%nat).
  { apply Nat.mod_upper_bound. destruct g; [congruence | simpl; lia]. }
  apply lookup_lt_is_Some in Hlt as [x Hx]. rewrite Hx. eauto.
Qed.

Lemma sample_params_drawn (grid : Grid) :
  forall (rng : Rng) (p : ParamDict) (rng' : Rng),
    sample_params grid rng = Ok (p, rng') -> in_grid grid p.
Proof.
  induction grid as [|[k g] grid IH]; intros rng p rng' H.
  - simpl in H. inversion H; subst. split; [reflexivity|]. intros k v [].
  - simpl in H.
    destruct (random_choice g rng) as [[v r1]|e] eqn:Hc; simpl in H; [|discriminate].
    destruct (sample_params grid r1) as [[d r2]|e] eqn:Hs; simpl in H; [|discriminate].
    inversion H; subst. apply random_choice_In in Hc as [Hv _].
    destruct (IH _ _ _ Hs) as [Hk Hin]. split.
    + simpl. f_equal. exact Hk.
    + intros k' v' [E|Hd].
      * inversion E; subst. exists g. split; [left; reflexivity | exact Hv].
      * destruct (Hin k' v' Hd) as [g' [Hg Hv']]. exists g'. split; [right|]; auto.
Qed.

(** X1: a sampled mapping has exactly the parameters of the grid, in the
    order of the grid, and each value is one the grid allows for its
    parameter. *)
Theorem sample_params_in_grid (grid : Grid) (rng : Rng) (p : ParamDict) (rng' : Rng) :
  sample_params grid rng = Ok (p, rng') ->
  keys p = keys grid
  /\ forall k v, In (k, v) p -> exists g, In (k, g) grid /\ In v g.
Proof. apply sample_params_drawn. Qed.

Lemma sample_params_in_grid_witness :
  keys [("units", AInt 2)] = keys grid_two
  /\ forall k v, In (k, v) [("units", AInt 2)] ->
                 exists g, In (k, g) grid_two /\ In v g.
Proof.
  apply (sample_params_in_grid grid_two (rng_next rng0) [("units", AInt 2)]
           (rng_next (rng_next rng0))).
  reflexivity.
Defined.

(** X2: sampling fails exactly when some parameter of the grid has no
    allowed value, and then with [IndexError] (from [random.choice]). *)
Theorem sample_params_fails_iff_empty_choice (grid : Grid) (rng : Rng) :
  (forall e, sample_params grid rng = Err e -> e = IndexError)
  /\ ((exists e, sample_params grid rng = Err e) <-> exists k, In (k, []) grid).
Proof.
  revert rng. induction grid as [|[k g] grid IH]; intros rng.
  - simpl. split; [discriminate|]. split; intros [x H]; [discriminate | destruct H].
  - simpl. destruct g as [|v0 g'].
    + rewrite random_choice_empty. simpl. split; [congruence|].
      split; [|eauto]. intros _. exists k. left. reflexivity.
    + destruct (random_choice_nonempty (v0 :: g') rng) as [v Hv]; [discriminate|].
      rewrite Hv. simpl. destruct (IH (rng_next rng)) as [He Hiff].
      destruct (sample_params grid (rng_next rng)) as [[d r2]|e] eqn:Hs; simpl.
      * split; [discriminate|]. split; [intros [e H]; discriminate|].
        intros [k' [E|Hin]]; [discriminate|].
        destruct (proj2 Hiff (ex_intro _ k' Hin)) as [e H]. discriminate.
      * split; [intros e' H; inversion H; subst; apply He; reflexivity|].
        split; [|eauto]. intros _.
        destruct (proj1 Hiff (ex_intro _ e eq_refl)) as [k' Hin].
        exists k'. right. exact Hin.
Qed.

Lemma sample_params_fails_iff_empty_choice_witness :
  exists k, In (k, []) [("activation", [AStr "relu"]); ("units", [])].
Proof.
  apply (proj1 (proj2 (sample_params_fails_iff_empty_choice
                         [("activation", [AStr "relu"]); ("units", [])] rng0))).
  exists IndexError. reflexivity.
Defined.

(** ** The slots of the initializer (lines 79-85) *)

Lemma already_sampled_repeat_None (params : ParamDict) (n : nat) :
  already_sampled params (repeat None n) = false.
Proof. unfold already_sampled. induction n; simpl; auto. Qed.

(** The loop never rewrites a slot below the index it is at. *)
Lemma param_pop_loop_keeps_lower (grid : Grid) :
  forall (m k : nat) (param_pop : list (option ParamDict)) (rng : Rng)
         (param_pop' : list (option ParamDict)) (rng' : Rng),
    param_pop_loop grid (seq k m) param_pop rng = Ok (param_pop', rng') ->
    forall j, (j < k)%nat -> param_pop' !! j = param_pop !! j.
Proof.
  induction m as [|m IH]; intros k pp rng pp' rng' Hloop j Hj.
  - simpl in Hloop. inversion Hloop; subst. reflexivity.
  - cbn [seq param_pop_loop] in Hloop.
    destruct (sample_params grid rng) as [[params rng1]|e]; simpl in Hloop;
      [|discriminate].
    destruct (already_sampled params pp).
    + apply (IH (S k) pp rng1 pp' rng' Hloop). lia.
    + rewrite (IH (S k) _ rng1 pp' rng' Hloop) by lia.
      apply list_lookup_insert_ne. lia.
Qed.

(** X3: for a target size of at least one, the first slot always holds the
    first sample: the check cannot reject it and later iterations do not
    touch it. *)
Theorem init_param_pop_first_slot (grid : Grid) (pop_size : Z) (rng : Rng)
    (param_pop : list (option ParamDict)) (rng' : Rng) :
  init_param_pop grid pop_size rng = Ok (param_pop, rng') ->
  0 < pop_size ->
  exists (p0 : ParamDict) (r1 : Rng),
    sample_params grid rng = Ok (p0, r1) /\ param_pop !! 0%nat = Some (Some p0).
Proof.
  unfold init_param_pop. intros Hloop Hpos.
  destruct (Z.to_nat pop_size) as [|n] eqn:Hn; [lia|].
  assert (Hfresh : forall p, already_sampled p (repeat None (S n)) = false)
    by (intros p; apply already_sampled_repeat_None).
  remember (repeat (@None ParamDict) (S n)) as slots eqn:Hslots.
  cbn [seq param_pop_loop] in Hloop.
  destruct (sample_params grid rng) as [[p0 r1]|e]; cbn [bind fst snd] in Hloop;
    [|discriminate].
  rewrite Hfresh in Hloop.
  exists p0, r1. split; [reflexivity|].
  rewrite (param_pop_loop_keeps_lower grid n 1 _ r1 param_pop rng' Hloop 0%nat) by lia.
  subst slots. reflexivity.
Qed.

Lemma init_param_pop_first_slot_witness :
  exists (p0 : ParamDict) (r1 : Rng),
    sample_params grid_one rng0 = Ok (p0, r1)
    /\ [Some params_relu; None] !! 0%nat = Some (Some p0).
Proof.
  apply (init_param_pop_first_slot grid_one 2 rng0 [Some params_relu; None]
           (rng_next (rng_next rng0))).
  - reflexivity.
  - lia.
Defined.

Lemma param_pop_loop_in_grid (grid : Grid) :
  forall (idxs : list nat) (param_pop : list (option ParamDict)) (rng : Rng)
         (param_pop' : list (option ParamDict)) (rng' : Rng),
    param_pop_loop grid idxs param_pop rng = Ok (param_pop', rng') ->
    (forall j q, param_pop !! j = Some (Some q) -> in_grid grid q) ->
    forall j q, param_pop' !! j = Some (Some q) -> in_grid grid q.
Proof.
  induction idxs as [|i idxs IH]; intros pp rng pp' rng' Hloop Hpp.
  - simpl in Hloop. inversion Hloop; subst. exact Hpp.
  - cbn [param_pop_loop] in Hloop.
    destruct (sample_params grid rng) as [[params rng1]|e] eqn:Hs; simpl in Hloop;
      [|discriminate].
    destruct (already_sampled params pp).
    + exact (IH pp rng1 pp' rng' Hloop Hpp).
    + apply (IH _ rng1 pp' rng' Hloop).
      intros j q Hj. destruct (decide (j = i)) as [->|Hne].
      * assert (Hlt : (i < length pp)%nat).
        { apply lookup_lt_Some in Hj. rewrite length_insert in Hj. exact Hj. }
        rewrite list_lookup_insert_eq in Hj by exact Hlt.
        inversion Hj; subst. eapply sample_params_drawn; eauto.
      * rewrite list_lookup_insert_ne in Hj by auto. eapply Hpp; eauto.
Qed.

(** X4: every slot the initializer fills holds a mapping drawn from the
    grid. *)
Theorem init_param_pop_slots_in_grid (grid : Grid) (pop_size : Z) (rng : Rng)
    (param_pop : list (option ParamDict)) (rng' : Rng) :
  init_param_pop grid pop_size rng = Ok (param_pop, rng') ->
  forall (j : nat) (q : ParamDict),
    param_pop !! j = Some (Some q) -> in_grid grid q.
Proof.
  unfold init_param_pop. intros Hloop.
  apply (param_pop_loop_in_grid grid _ _ rng param_pop rng' Hloop).
  intros j q Hj. exfalso. exact (repeat_None_lookup _ _ _ Hj).
Qed.

Lemma init_param_pop_slots_in_grid_witness :
  in_grid grid_two [("units", AInt 2)].
Proof.
  apply (init_param_pop_slots_in_grid grid_two 3 rng0
           [Some [("units", AInt 1)]; Some [("units", AInt 2)]; None]
           (rng_next (rng_next (rng_next rng0))) eq_refl 1%nat).
  reflexivity.
Defined.

(** ** The constructor past line 58 *)

(** What a returning call of the constructor went through. *)
Lemma init_inversion `{B : MLBackend} (ns : Namespace) (a : InitArgs) (rng : Rng)
    (self : NNGA) (rng' : Rng) :
  __init__ ns a rng = Ok (self, rng') ->
  exists (rs : gval) (reg clf : scorer) (param_pop : list (option ParamDict))
         (d : list (string * NNModelInfo)),
    ns "random_select" = Some rs
    /\ dict_get (arg_reg_metric a) reg_metrics = Some reg
    /\ dict_get (arg_clf_metric a) clf_metrics = Some clf
    /\ init_param_pop (arg_param_grid a) (arg_pop_size a) rng = Ok (param_pop, rng')
    /\ pop_of_nns (List.map (fun p => mkNNModelInfo p 0 None None None) param_pop) []
       = Ok d
    /\ self = {| param_grid := arg_param_grid a; random_select := rs;
                 mutation_rate := arg_mutation_rate a; pop_size := 15;
                 pbar := arg_pbar a; mode := None;
                 selection_rate := arg_selection_rate a; reg_scorer := reg;
                 clf_scorer := clf; pop := PopDict d;
                 model_class := NNWrapper_class |}.
Proof.
  unfold __init__, load_global, getitem. intros H.
  destruct (ns "random_select") as [rs|]; cbn [bind fst snd] in H; [|discriminate].
  destruct (dict_get (arg_reg_metric a) reg_metrics) as [reg|]; cbn [bind fst snd] in H;
    [|discriminate].
  destruct (dict_get (arg_clf_metric a) clf_metrics) as [clf|]; cbn [bind fst snd] in H;
    [|discriminate].
  destruct (init_param_pop (arg_param_grid a) (arg_pop_size a) rng)
    as [[param_pop rng1]|e] eqn:Hpp; cbn [bind fst snd] in H; [|discriminate].
  destruct (pop_of_nns _ []) as [d|e] eqn:Hd; cbn [bind fst snd] in H; [|discriminate].
  inversion H; subst. exists rs, reg, clf, param_pop, d. repeat split; auto.
Qed.

(** X5: once [random_select] is bound, a metric name outside the two
    tables makes the constructor raise [KeyError] before anything is
    sampled; the default [reg_metric='mae'] is such a name. *)
Theorem init_unknown_metric_KeyError `{B : MLBackend} (ns : Namespace) (a : InitArgs)
    (rng : Rng) (rs : gval) :
  ns "random_select" = Some rs ->
  (arg_reg_metric a <> "neg_mae" /\ arg_reg_metric a <> "neg_mse")
  \/ (arg_clf_metric a <> "f1" /\ arg_clf_metric a <> "roc_auc"
      /\ arg_clf_metric a <> "accuracy") ->
  __init__ ns a rng = Err KeyError.
Proof.
  intros Hns Hbad. unfold __init__, load_global, getitem. rewrite Hns. simpl.
  destruct (String.eqb_spec (arg_reg_metric a) "neg_mae") as [E1|N1];
    [|destruct (String.eqb_spec (arg_reg_metric a) "neg_mse") as [E2|N2]];
    simpl; try reflexivity.
  - destruct Hbad as [[H _]|(H1 & H2 & H3)]; [contradiction|].
    apply String.eqb_neq in H1, H2, H3. rewrite H1, H2, H3. reflexivity.
  - destruct Hbad as [[_ H]|(H1 & H2 & H3)]; [contradiction|].
    apply String.eqb_neq in H1, H2, H3. rewrite H1, H2, H3. reflexivity.
Qed.

Lemma init_unknown_metric_KeyError_witness :
  @__init__ toy_backend ns_with_random_select
    (toy_args_metrics default_param_grid 15 "mae" "f1") rng0 = Err KeyError.
Proof.
  apply (@init_unknown_metric_KeyError toy_backend ns_with_random_select
           (toy_args_metrics default_param_grid 15 "mae" "f1") rng0
           (@GFloat toy_backend (toy_float 5))).
  - reflexivity.
  - left. split; discriminate.
Defined.

(** *** Building the population dict (lines 87-88) *)

Lemma ref_None `{B : MLBackend} (m : NNModelInfo) :
  params m = None -> ref m = Err TypeError.
Proof. intros H. unfold ref, ordered_params. rewrite H. reflexivity. Qed.

Lemma ref_Ok `{B : MLBackend} (m : NNModelInfo) (r : string) :
  ref m = Ok r ->
  exists p, params m = Some p
            /\ r = "model_" ++ SHA1.hexdigest (PyRepr.str_OrderedDict p).
Proof.
  unfold ref, ordered_params. destruct (params m) as [p|]; simpl; [|discriminate].
  intros H. inversion H. eauto.
Qed.

Lemma pop_of_nns_None_slot `{B : MLBackend} (nns : list NNModelInfo) :
  forall acc, (exists m, In m nns /\ params m = None) ->
              pop_of_nns nns acc = Err TypeError.
Proof.
  induction nns as [|n nns IH]; intros acc [m [Hin Hm]]; [destruct Hin|].
  simpl. destruct (params n) as [p|] eqn:Hn.
  - unfold ref at 1, ordered_params. rewrite Hn. simpl.
    apply IH. destruct Hin as [->|Hin]; [congruence|eauto].
  - rewrite (ref_None n Hn). reflexivity.
Qed.

(** X6: once [random_select] is bound and the metric names are known, a
    slot left [None] by a skipped duplicate makes the constructor raise
    [TypeError] when the refs are computed (line 88). *)
Theorem init_skipped_slot_TypeError `{B : MLBackend} (ns : Namespace) (a : InitArgs)
    (rng : Rng) (rs : gval) (reg clf : scorer)
    (param_pop : list (option ParamDict)) (rng' : Rng) :
  ns "random_select" = Some rs ->
  dict_get (arg_reg_metric a) reg_metrics = Some reg ->
  dict_get (arg_clf_metric a) clf_metrics = Some clf ->
  init_param_pop (arg_param_grid a) (arg_pop_size a) rng = Ok (param_pop, rng') ->
  In None param_pop ->
  __init__ ns a rng = Err TypeError.
Proof.
  intros Hns Hreg Hclf Hpp Hnone.
  unfold __init__, load_global, getitem. rewrite Hns, Hreg, Hclf, Hpp. simpl.
  rewrite pop_of_nns_None_slot; [reflexivity|].
  exists (mkNNModelInfo None 0 None None None). split; [|reflexivity].
  apply in_map_iff. exists None. auto.
Qed.

Lemma init_skipped_slot_TypeError_witness :
  @__init__ toy_backend ns_with_random_select (toy_args grid_one 2) rng0
  = Err TypeError.
Proof.
  apply (@init_skipped_slot_TypeError toy_backend ns_with_random_select
           (toy_args grid_one 2) rng0 (@GFloat toy_backend (toy_float 5))
           neg_mean_absolute_error f1_score [Some params_relu; None]
           (rng_next (rng_next rng0))).
  - reflexivity.
  - reflexivity.
  - reflexivity.
  - reflexivity.
  - right. left. reflexivity.
Defined.

Lemma In_dict_set {V : Type} (k k0 : string) (v v0 : V) (d : list (string * V)) :
  In (k, v) (dict_set k0 v0 d) -> (k, v) = (k0, v0) \/ In (k, v) d.
Proof.
  induction d as [|[k1 v1] d IH]; simpl.
  - intros [H|[]]. left. congruence.
  - destruct (String.eqb k0 k1); simpl.
    + intros [H|H]; [left; congruence | right; right; exact H].
    + intros [H|H]; [right; left; exact H|].
      destruct (IH H) as [E|Hin]; [left; exact E | right; right; exact Hin].
Qed.

Lemma In_keys_dict_set {V : Type} (k k0 : string) (v0 : V) (d : list (string * V)) :
  In k (keys (dict_set k0 v0 d)) -> k = k0 \/ In k (keys d).
Proof.
  unfold keys. intros H. apply in_map_iff in H as [[k' v'] [E Hin]].
  simpl in E. subst k'. apply In_dict_set in Hin as [E|Hin].
  - left. congruence.
  - right. apply in_map_iff. exists (k, v'). auto.
Qed.

Lemma NoDup_keys_dict_set {V : Type} (k0 : string) (v0 : V) (d : list (string * V)) :
  List.NoDup (keys d) -> List.NoDup (keys (dict_set k0 v0 d)).
Proof.
  induction d as [|[k1 v1] d IH]; simpl; intros Hnd.
  - constructor; [intros [] | constructor].
  - apply List.NoDup_cons_iff in Hnd as [Hnot Hnd].
    destruct (String.eqb_spec k0 k1) as [->|Hne]; simpl.
    + constructor; assumption.
    + constructor; [|apply IH; exact Hnd].
      intros Hin. apply In_keys_dict_set in Hin as [E|Hin]; [congruence|].
      apply Hnot. exact Hin.
Qed.

Lemma length_dict_set {V : Type} (k0 : string) (v0 : V) (d : list (string * V)) :
  (length d <= length (dict_set k0 v0 d) <= S (length d))%nat.
Proof.
  induction d as [|[k1 v1] d IH]; simpl; [lia|].
  destruct (String.eqb k0 k1); simpl; lia.
Qed.

(** The dict comprehension of line 88 keeps every entry under the ref of
    its value, keeps the keys distinct, and adds at most one entry per
    individual. *)
Lemma pop_of_nns_inv `{B : MLBackend} (P : NNModelInfo -> Prop)
    (nns : list NNModelInfo) :
  forall (acc d : list (string * NNModelInfo)),
    pop_of_nns nns acc = Ok d ->
    (forall k m, In (k, m) acc -> ref m = Ok k /\ P m) ->
    (forall m, In m nns -> P m) ->
    List.NoDup (keys acc) ->
    (forall k m, In (k, m) d -> ref m = Ok k /\ P m)
    /\ List.NoDup (keys d)
    /\ (length acc <= length d <= length acc + length nns)%nat.
Proof.
  induction nns as [|n nns IH]; intros acc d H Hacc Hnns Hnd.
  - simpl in H. inversion H; subst.
    split; [exact Hacc|]. split; [exact Hnd|]. simpl. lia.
  - simpl in H. destruct (ref n) as [r|e] eqn:Hr; simpl in H; [|discriminate].
    destruct (IH _ _ H) as (H1 & H2 & H3).
    + intros k m Hin. apply In_dict_set in Hin as [E|Hin].
      * inversion E; subst. split; [exact Hr | apply Hnns; left; reflexivity].
      * apply Hacc. exact Hin.
    + intros m Hin. apply Hnns. right. exact Hin.
    + apply NoDup_keys_dict_set. exact Hnd.
    + pose proof (length_dict_set r n acc).
      split; [exact H1|]. split; [exact H2|]. simpl. lia.
Qed.

(** X7: an instance the constructor returns has its mode unset and a
    population dict with distinct keys and at most [pop_size] entries; every
    entry is stored under its own ref and is an individual of generation 0
    without score or lineage whose mapping is drawn from the grid. *)
Theorem init_population_keyed_by_ref `{B : MLBackend} (ns : Namespace) (a : InitArgs)
    (rng : Rng) (self : NNGA) (rng' : Rng) :
  __init__ ns a rng = Ok (self, rng') ->
  mode self = None
  /\ param_grid self = arg_param_grid a
  /\ exists d : list (string * NNModelInfo),
      pop self = PopDict d
      /\ List.NoDup (keys d)
      /\ (length d <= Z.to_nat (arg_pop_size a))%nat
      /\ forall k m,
          In (k, m) d ->
          ref m = Ok k
          /\ (gen m = 0 /\ score m = None /\ parents m = None /\ children m = None)
          /\ exists p, params m = Some p
                       /\ keys p = keys (arg_param_grid a)
                       /\ forall key v, In (key, v) p ->
                            exists g, In (key, g) (arg_param_grid a) /\ In v g.
Proof.
  intros H. apply init_inversion in H
    as (rs & reg & clf & pp & d & _ & _ & _ & Hpp & Hd & ->).
  simpl. split; [reflexivity|]. split; [reflexivity|].
  exists d. split; [reflexivity|].
  pose proof (init_param_pop_inv _ _ _ _ _ Hpp) as [Hlen _].
  destruct (pop_of_nns_inv
              (fun m => fresh_individual m
                        /\ forall p, params m = Some p -> in_grid (arg_param_grid a) p)
              _ _ _ Hd) as (H1 & H2 & H3).
  - intros k m [].
  - intros m Hin. apply in_map_iff in Hin as [slot [<- Hslot]]. simpl.
    split; [repeat split|].
    intros p Hp. subst slot.
    apply list_elem_of_In, list_elem_of_lookup in Hslot as [j Hj].
    eapply param_pop_loop_in_grid; [exact Hpp | | exact Hj].
    intros j' q Hq. exfalso. exact (repeat_None_lookup _ _ _ Hq).
  - constructor.
  - split; [exact H2|]. split.
    + rewrite length_map in H3. simpl in H3. lia.
    + intros k m Hin. destruct (H1 k m Hin) as [Hr [Hfresh Hgrid]].
      split; [exact Hr|]. split; [exact Hfresh|].
      destruct (ref_Ok m k Hr) as [p [Hp _]]. exists p. split; [exact Hp|].
      exact (Hgrid p Hp).
Qed.

Lemma init_population_keyed_by_ref_witness :
  mode toy_instance = None
  /\ param_grid toy_instance = grid_two
  /\ exists d : list (string * @NNModelInfo toy_backend),
      pop toy_instance = PopDict d
      /\ List.NoDup (keys d)
      /\ (length d <= Z.to_nat 2)%nat
      /\ forall k m,
          In (k, m) d ->
          ref m = Ok k
          /\ (gen m = 0 /\ score m = None /\ parents m = None /\ children m = None)
          /\ exists p, params m = Some p
                       /\ keys p = keys grid_two
                       /\ forall key v, In (key, v) p ->
                            exists g, In (key, g) grid_two /\ In v g.
Proof.
  apply (@init_population_keyed_by_ref toy_backend ns_with_random_select
           (toy_args grid_two 2) rng0 toy_instance (rng_next (rng_next rng0))).
  vm_compute. reflexivity.
Defined.

Lemma pop_of_nns_length `{B : MLBackend} (nns : list NNModelInfo) :
  forall (acc d : list (string * NNModelInfo)),
    pop_of_nns nns acc = Ok d -> (length acc <= length d)%nat.
Proof.
  induction nns as [|n nns IH]; intros acc d H; simpl in H.
  - inversion H; subst. lia.
  - destruct (ref n) as [r|e]; simpl in H; [|discriminate].
    apply IH in H. pose proof (length_dict_set r n acc). lia.
Qed.

(** X8: an instance the constructor returns for a positive [pop_size]
    cannot be evolved: whatever the generation, the data and the namespace,
    [evolve] raises [AttributeError] before any model is built. *)
Theorem init_then_evolve_AttributeError `{B : MLBackend} (ns : Namespace) (a : InitArgs)
    (rng : Rng) (self : NNGA) (rng' : Rng) :
  __init__ ns a rng = Ok (self, rng') ->
  0 < arg_pop_size a ->
  forall (ns2 : Namespace) (h2 : Heap) (g : Z) (X_train X_val : Features)
         (y_train y_val : Labels) (rng2 : Rng),
    evolve ns2 h2 self g X_train X_val y_train y_val rng2
    = mkEvolveRun [] [] ns2 h2 rng2 (Err AttributeError).
Proof.
  intros H Hpos ns2 h2 g X_train X_val y_train y_val rng2.
  apply init_inversion in H
    as (rs & reg & clf & pp & d & _ & _ & _ & Hpp & Hd & ->).
  pose proof (init_param_pop_inv _ _ _ _ _ Hpp) as [Hlen _].
  destruct pp as [|slot pp]; [simpl in Hlen; lia|].
  simpl in Hd.
  destruct (ref (mkNNModelInfo slot 0 None None None)) as [r|e]; simpl in Hd;
    [|discriminate].
  apply pop_of_nns_length in Hd. simpl in Hd.
  destruct d as [|[k m] d]; [simpl in Hd; lia|].
  reflexivity.
Qed.

Lemma init_then_evolve_AttributeError_witness :
  @evolve toy_backend module_ns heap0 toy_instance 0 1 2 3 4 rng0
  = mkEvolveRun [] [] module_ns heap0 rng0 (Err AttributeError).
Proof.
  apply (@init_then_evolve_AttributeError toy_backend ns_with_random_select
           (toy_args grid_two 2) rng0 toy_instance (rng_next (rng_next rng0))).
  - vm_compute. reflexivity.
  - reflexivity.
Defined.

(** X9: with [random_select] bound and known metric names, a target size
    of zero or less gives an instance with an empty population without
    drawing any value, whatever the grid holds. *)
Theorem init_nonpositive_size `{B : MLBackend} (ns : Namespace) (a : InitArgs)
    (rng : Rng) (rs : gval) (reg clf : scorer) :
  ns "random_select" = Some rs ->
  dict_get (arg_reg_metric a) reg_metrics = Some reg ->
  dict_get (arg_clf_metric a) clf_metrics = Some clf ->
  arg_pop_size a <= 0 ->
  exists self : NNGA,
    __init__ ns a rng = Ok (self, rng)
    /\ pop self = PopDict [] /\ pop_size self = 15.
Proof.
  intros Hns Hreg Hclf Hn.
  assert (Hz : Z.to_nat (arg_pop_size a) = 0%nat) by lia.
  unfold __init__, load_global, getitem, init_param_pop.
  rewrite Hns, Hreg, Hclf, Hz. simpl. eexists. split; [reflexivity|]. auto.
Qed.

Lemma init_nonpositive_size_witness :
  exists self : @NNGA toy_backend,
    __init__ ns_with_random_select (toy_args [("units", [])] (-3)) rng0 = Ok (self, rng0)
    /\ pop self = PopDict [] /\ pop_size self = 15.
Proof.
  apply (@init_nonpositive_size toy_backend ns_with_random_select
           (toy_args [("units", [])] (-3)) rng0 (@GFloat toy_backend (toy_float 5))
           neg_mean_absolute_error f1_score).
  - reflexivity.
  - reflexivity.
  - reflexivity.
  - simpl. lia.
Defined.

(** ** The identity hash among sampled candidates *)

Lemma dict_get_not_key {V : Type} (k : string) (d : list (string * V)) :
  ~ In k (keys d) -> dict_get k d = None.
Proof.
  induction d as [|[k' v] d IH]; simpl; [reflexivity|].
  intros Hnot. destruct (String.eqb_spec k k') as [->|Hne].
  - exfalso. apply Hnot. left. reflexivity.
  - apply IH. intros Hin. apply Hnot. right. exact Hin.
Qed.

(** Two dicts with the same keys in the same order and the same value
    under every key are the same sequence of items. *)
Lemma same_order_same_items (p : ParamDict) :
  forall q : ParamDict,
    keys p = keys q ->
    List.NoDup (keys p) ->
    (forall k v, In (k, v) p -> dict_get k q = Some v) ->
    p = q.
Proof.
  induction p as [|[k v] p IH]; intros q Hkeys Hnd Hget.
  - destruct q; [reflexivity | discriminate].
  - destruct q as [|[k2 v2] q]; [discriminate|].
    simpl in Hkeys. injection Hkeys as Hk Hks. subst k2.
    simpl in Hnd. apply List.NoDup_cons_iff in Hnd as [Hnotin Hnd].
    assert (Hv : v2 = v).
    { specialize (Hget k v (or_introl eq_refl)). simpl in Hget.
      rewrite String.eqb_refl in Hget. congruence. }
    subst v2. f_equal. apply IH; auto.
    intros k' v' Hin. specialize (Hget k' v' (or_intror Hin)). simpl in Hget.
    destruct (String.eqb_spec k' k) as [->|Hne]; [|exact Hget].
    exfalso. apply Hnotin. unfold keys. apply in_map_iff. exists (k, v'). auto.
Qed.

Lemma dict_get_In {V : Type} (k : string) (v : V) (d : list (string * V)) :
  dict_get k d = Some v -> In (k, v) d.
Proof.
  induction d as [|[k' v'] d IH]; simpl; [discriminate|].
  destruct (String.eqb_spec k k') as [->|Hne].
  - intros H. inversion H; subst. left. reflexivity.
  - intros H. right. apply IH. exact H.
Qed.

(** On values of type [str] and [int], [==] is equality. *)
Lemma allele_eqb_eq (a b : allele) :
  str_or_int a -> str_or_int b -> allele_eqb a b = true -> a = b.
Proof.
  destruct a, b; simpl; try discriminate; try contradiction.
  - intros _ _ H. apply String.eqb_eq in H. congruence.
  - intros _ _ H. apply Z.eqb_eq in H. congruence.
Qed.

Lemma dict_eqb_items (p q : ParamDict) :
  (forall k v, In (k, v) p -> str_or_int v) ->
  (forall k v, In (k, v) q -> str_or_int v) ->
  dict_eqb p q = true -> forall k v, In (k, v) p -> dict_get k q = Some v.
Proof.
  unfold dict_eqb. intros Hp Hq H k v Hin.
  apply andb_true_iff in H as [_ H].
  rewrite forallb_forall in H. specialize (H (k, v) Hin). simpl in H.
  destruct (dict_get k q) as [v'|] eqn:Hget; [|discriminate].
  apply allele_eqb_eq in H; [congruence | eapply Hp; eauto |].
  eapply Hq. apply dict_get_In. exact Hget.
Qed.

(** X10: for two candidates sampled from one grid whose parameter names
    are distinct and whose values are all of type [str] or [int] (as in the
    grid of the module), mappings that compare equal are the same sequence
    of items, so the candidates get the same ref: there the duplicate check
    of line 82 and the key of line 88 agree. *)
Theorem sampled_equal_same_ref `{B : MLBackend} (grid : Grid) (r1 r2 : Rng)
    (p q : ParamDict) (r1' r2' : Rng) (m1 m2 : NNModelInfo) :
  List.NoDup (keys grid) ->
  (forall k g v, In (k, g) grid -> In v g ->
     (exists s, v = AStr s) \/ (exists z, v = AInt z)) ->
  sample_params grid r1 = Ok (p, r1') ->
  sample_params grid r2 = Ok (q, r2') ->
  dict_eqb p q = true ->
  params m1 = Some p ->
  params m2 = Some q ->
  p = q /\ ref m1 = ref m2.
Proof.
  intros Hnd Htypes Hp Hq Heq H1 H2.
  destruct (sample_params_drawn _ _ _ _ Hp) as [Hkp Hvp].
  destruct (sample_params_drawn _ _ _ _ Hq) as [Hkq Hvq].
  assert (Hsi : forall d, (forall k v, In (k, v) d ->
                             exists g, In (k, g) grid /\ In v g) ->
                          forall k v, In (k, v) d -> str_or_int v).
  { intros d Hd k v Hin. destruct (Hd k v Hin) as [g [Hg Hv]].
    destruct (Htypes k g v Hg Hv) as [[s ->]|[z ->]]; exact I. }
  assert (E : p = q).
  { apply same_order_same_items.
    - congruence.
    - rewrite Hkp. exact Hnd.
    - apply dict_eqb_items; [apply Hsi, Hvp | apply Hsi, Hvq | exact Heq]. }
  split; [exact E|]. subst q.
  unfold ref, ordered_params. rewrite H1, H2. reflexivity.
Qed.

Lemma sampled_equal_same_ref_witness :
  [("units", AInt 1)] = [("units", AInt 1)]
  /\ @ref toy_backend (mkNNModelInfo (Some [("units", AInt 1)]) 0 None None None)
     = @ref toy_backend (mkNNModelInfo (Some [("units", AInt 1)]) 4 None None None).
Proof.
  apply (@sampled_equal_same_ref toy_backend grid_two rng0
           (rng_next (rng_next rng0)) [("units", AInt 1)] [("units", AInt 1)]
           (rng_next rng0) (rng_next (rng_next (rng_next rng0)))
           (mkNNModelInfo (Some [("units", AInt 1)]) 0 None None None)
           (mkNNModelInfo (Some [("units", AInt 1)]) 4 None None None)).
  - repeat constructor. simpl. intuition.
  - intros k g v [E|[]] Hv. inversion E; subst.
    destruct Hv as [<-|[<-|[]]]; right; eauto.
  - reflexivity.
  - reflexivity.
  - reflexivity.
  - reflexivity.
  - reflexivity.
Defined.

(** ** The shape of a ref *)

Lemma string_length_append (s t : string) :
  String.length (s ++ t) = (String.length s + String.length t)%nat.
Proof. induction s as [|c s IH]; simpl; [reflexivity | rewrite IH; reflexivity]. Qed.

Lemma string_forall_append (f : ascii -> bool) (s t : string) :
  string_forall f (s ++ t) = string_forall f s && string_forall f t.
Proof.
  induction s as [|c s IH]; simpl; [reflexivity|].
  rewrite IH, andb_assoc. reflexivity.
Qed.

Lemma hex_of_length (n : nat) (x : Z) : String.length (SHA1.hex_of n x) = n.
Proof. induction n as [|n IH]; simpl; [reflexivity | rewrite IH; reflexivity]. Qed.

Lemma hex_digit_is_hex (v : Z) : 0 <= v < 16 -> is_hex_digit (SHA1.hex_digit v) = true.
Proof.
  intros Hv.
  assert (H : v = 0 \/ v = 1 \/ v = 2 \/ v = 3 \/ v = 4 \/ v = 5 \/ v = 6 \/ v = 7
              \/ v = 8 \/ v = 9 \/ v = 10 \/ v = 11 \/ v = 12 \/ v = 13 \/ v = 14
              \/ v = 15) by lia.
  repeat (destruct H as [->|H]; [reflexivity|]). subst v. reflexivity.
Qed.

Lemma hex_of_is_hex (n : nat) (x : Z) :
  string_forall is_hex_digit (SHA1.hex_of n x) = true.
Proof.
  induction n as [|n IH]; simpl; [reflexivity|].
  rewrite IH, andb_true_r. apply hex_digit_is_hex.
  change 15 with (Z.ones 4). rewrite Z.land_ones by lia.
  apply Z.mod_pos_bound. reflexivity.
Qed.

Lemma hexdigest_shape (s : string) :
  String.length (SHA1.hexdigest s) = 40%nat
  /\ string_forall is_hex_digit (SHA1.hexdigest s) = true.
Proof.
  unfold SHA1.hexdigest. cbv zeta.
  rewrite !string_length_append, !string_forall_append, !hex_of_length, !hex_of_is_hex.
  split; reflexivity.
Qed.

(** X11: whenever an individual has a ref, it is the text [model_]
    followed by forty lower-case hexadecimal digits; an individual without a
    parameter mapping has none ([TypeError]). *)
Theorem ref_shape `{B : MLBackend} (m : NNModelInfo) :
  (params m = None -> ref m = Err TypeError)
  /\ (forall r, ref m = Ok r ->
        exists h, r = "model_" ++ h
                  /\ String.length h = 40%nat
                  /\ string_forall is_hex_digit h = true).
Proof.
  split; [apply ref_None|].
  intros r Hr. apply ref_Ok in Hr as [p [_ ->]].
  exists (SHA1.hexdigest (PyRepr.str_OrderedDict p)).
  split; [reflexivity | apply hexdigest_shape].
Qed.

Lemma ref_shape_witness :
  exists h, "model_7f3ef4b8d7c1891f0fb88b32ee54158c8b5b0c5c" = "model_" ++ h
            /\ String.length h = 40%nat
            /\ string_forall is_hex_digit h = true.
Proof.
  apply (proj2 (@ref_shape toy_backend (mkNNModelInfo (Some p_ab) 0 None None None))).
  vm_compute. reflexivity.
Defined.

(** ** The evaluation loop of evolve (lines 99-115) *)






(** X13: in a supported mode, when the loop body has run to its end on the
    individuals before it (their library calls returned), an individual
    without a parameter mapping stops the loop with [TypeError]: the
    individuals before it keep the scores they were given, it and the ones
    after it are untouched, and the breeding step is not reached. *)
Theorem evolve_stops_at_missing_params `{B : MLBackend} (ns : Namespace) (h : Heap)
    (self : NNGA) (g : Z) (X_train X_val : Features) (y_train y_val : Labels)
    (rng : Rng) (sc : scorer) (pre : list NNModelInfo) (m : NNModelInfo)
    (post : list NNModelInfo) :
  (mode self = Some AMM_REG_NAME /\ sc = reg_scorer self)
  \/ (mode self = Some AMM_CLF_NAME /\ AMM_CLF_NAME <> AMM_REG_NAME
      /\ sc = clf_scorer self) ->
  gen_pop_of g (py_iter (pop self)) = Ok (pre ++ m :: post)%list ->
  Forall (fun x => exists p s,
            params x = Some p
            /\ (y_pred <- predict_for self X_train X_val y_train p ;;
                call_scorer sc y_val y_pred) = Ok s) pre ->
  params m = None ->
  evolve ns h self g X_train X_val y_train y_val rng
  = mkEvolveRun
      (List.map (score_of self sc X_train X_val y_train y_val) pre ++ m :: post)%list
      (flat_map (calls_for self sc X_train X_val y_train y_val) pre)
      ns h rng (Err TypeError).
Proof.
  intros Hmode Hgen Hpre Hm.
  pose proof (select_scorer_supported self sc Hmode) as Hsel.
  unfold evolve. rewrite Hgen.
  rewrite (evaluate_app self sc X_train X_val y_train y_val pre (m :: post) [] Hsel Hpre).
  cbn [evaluate]. unfold score_individual. rewrite Hm. reflexivity.
Qed.

Lemma evolve_stops_at_missing_params_witness :
  @evolve toy_backend module_ns heap0
    (toy_nnga (Some "regression") (PopList [ind_a; ind_none; ind_b]) default_param_grid)
    0 1 2 3 4 rng0
  = @mkEvolveRun toy_backend
      [set_score ind_a (toy_float (-2)); ind_none; ind_b]
      [EvConstruct [("units", AInt 3)]; @EvFit toy_backend 1 3;
       @EvPredict toy_backend 2; @EvScore toy_backend neg_mean_absolute_error 4 6]
      module_ns heap0 rng0 (Err TypeError).
Proof.
  apply (@evolve_stops_at_missing_params toy_backend module_ns heap0
           (toy_nnga (Some "regression") (PopList [ind_a; ind_none; ind_b])
              default_param_grid)
           0 1 2 3 4 rng0 neg_mean_absolute_error [ind_a] ind_none [ind_b]).
  - left. split; reflexivity.
  - reflexivity.
  - constructor; [|constructor].
    exists [("units", AInt 3)], (toy_float (-2)). split; reflexivity.
  - reflexivity.
Defined.



(** ** The breeding step of evolve (lines 117-120) *)

Lemma dict_get_set_eq {V : Type} (k : string) (v : V) (d : list (string * V)) :
  dict_get k (dict_set k v d) = Some v.
Proof.
  induction d as [|[k1 v1] d IH]; simpl.
  - rewrite String.eqb_refl. reflexivity.
  - destruct (String.eqb k k1) eqn:E; simpl.
    + rewrite String.eqb_refl. reflexivity.
    + rewrite E. exact IH.
Qed.

Lemma dict_get_set_ne {V : Type} (k k0 : string) (v : V) (d : list (string * V)) :
  k <> k0 -> dict_get k (dict_set k0 v d) = dict_get k d.
Proof.
  intros Hne. apply String.eqb_neq in Hne.
  induction d as [|[k1 v1] d IH]; simpl.
  - rewrite Hne. reflexivity.
  - destruct (String.eqb k0 k1) eqn:E; simpl.
    + apply String.eqb_eq in E. subst k1. rewrite Hne. reflexivity.
    + destruct (String.eqb k k1); [reflexivity | exact IH].
Qed.

Lemma heap_set_eq (o : nat) (d : ParamDict) (h : Heap) : heap_set o d h o = d.
Proof. unfold heap_set. rewrite Nat.eqb_refl. reflexivity. Qed.

Lemma heap_set_ne (o o' : nat) (d : ParamDict) (h : Heap) :
  o' <> o -> heap_set o d h o' = h o'.
Proof.
  intros Hne. unfold heap_set.
  destruct (Nat.eqb_spec o o'); [congruence | reflexivity].
Qed.

(** The entry for [k0] after the store [h o [k] = v]. *)
Lemma dict_get_store (h : Heap) (o o' : nat) (k k0 : string) (v : allele) :
  dict_get k0 (heap_set o (dict_set k v (h o)) h o')
  = if Nat.eqb o o' && String.eqb k0 k then Some v else dict_get k0 (h o').
Proof.
  destruct (Nat.eqb_spec o o') as [<-|Hne]; simpl.
  - rewrite heap_set_eq. destruct (String.eqb_spec k0 k) as [->|Hk].
    + apply dict_get_set_eq.
    + apply dict_get_set_ne. exact Hk.
  - rewrite heap_set_ne; [reflexivity | congruence].
Qed.

(** One execution of line 120 when the three names are bound to dict
    objects and both parents have the key. *)
Lemma breed_gene_family `{B : MLBackend} (ns : Namespace) (h : Heap) (rng : Rng)
    (om ofa oc : nat) (k : string) (a b : allele) :
  family ns om ofa oc ->
  dict_get k (h om) = Some a ->
  dict_get k (h ofa) = Some b ->
  exists v, (v = a \/ v = b)
            /\ breed_gene ns k (h, rng)
               = (heap_set oc (dict_set k v (h oc)) h, rng_next rng, Ok tt).
Proof.
  intros (Hm & Hf & Hc) Ha Hb.
  destruct (random_choice_nonempty [a; b] rng) as [v Hv]; [discriminate|].
  unfold breed_gene, load_global.
  rewrite Hm, Hf, Hc. cbn [bind subscript]. unfold getitem.
  rewrite Ha, Hb. cbn [bind]. rewrite Hv.
  exists v. split; [|reflexivity].
  apply random_choice_In in Hv as [Hin _]. simpl in Hin. intuition.
Qed.

Lemma breed_gene_inv `{B : MLBackend} (ns : Namespace) (K : list string)
    (om ofa oc : nat) (h0 h : Heap) (rng : Rng) (k : string) :
  family ns om ofa oc ->
  In k K ->
  breeding_inv K om ofa oc h0 h ->
  exists h1,
    breed_gene ns k (h, rng) = (h1, rng_next rng, Ok tt)
    /\ breeding_inv K om ofa oc h0 h1
    /\ bred om ofa oc h0 h1 k
    /\ (forall k0, bred om ofa oc h0 h k0 -> bred om ofa oc h0 h1 k0).
Proof.
  intros Hfam Hk (Hframe & Hmo & Hfa & Hout).
  destruct (Hmo k Hk) as (a & Ha & Hga).
  destruct (Hfa k Hk) as (b & Hb & Hgb).
  destruct (breed_gene_family ns h rng om ofa oc k a b Hfam Ha Hb) as (v & Hv & Hstep).
  assert (Hgv : gene_of_parents (h0 om) (h0 ofa) k v) by (destruct Hv as [->| ->]; assumption).
  exists (heap_set oc (dict_set k v (h oc)) h).
  split; [exact Hstep|]. split; [|split].
  - split; [|split; [|split]].
    + intros o Ho. rewrite heap_set_ne by exact Ho. apply Hframe. exact Ho.
    + intros k' Hk'. rewrite dict_get_store.
      destruct (Nat.eqb oc om && String.eqb k' k) eqn:E; [|apply Hmo; exact Hk'].
      apply andb_true_iff in E as [_ E]. apply String.eqb_eq in E. subst k'.
      exists v. split; [reflexivity | exact Hgv].
    + intros k' Hk'. rewrite dict_get_store.
      destruct (Nat.eqb oc ofa && String.eqb k' k) eqn:E; [|apply Hfa; exact Hk'].
      apply andb_true_iff in E as [_ E]. apply String.eqb_eq in E. subst k'.
      exists v. split; [reflexivity | exact Hgv].
    + intros k' Hk'. rewrite dict_get_store.
      destruct (Nat.eqb oc oc && String.eqb k' k) eqn:E; [|apply Hout; exact Hk'].
      apply andb_true_iff in E as [_ E]. apply String.eqb_eq in E. subst k'.
      contradiction.
  - exists v. rewrite dict_get_store, Nat.eqb_refl, String.eqb_refl.
    split; [reflexivity | exact Hgv].
  - intros k0 (v0 & Hv0 & Hg0). unfold bred. rewrite dict_get_store.
    destruct (Nat.eqb oc oc && String.eqb k0 k) eqn:E.
    + apply andb_true_iff in E as [_ E]. apply String.eqb_eq in E. subst k0.
      exists v. split; [reflexivity | exact Hgv].
    + exists v0. split; assumption.
Qed.

(** One pass of the inner loop over the keys [ks]. *)
Lemma breed_pass `{B : MLBackend} (ns : Namespace) (K : list string)
    (om ofa oc : nat) (h0 : Heap) :
  family ns om ofa oc ->
  forall (ks : list string),
    (forall k, In k ks -> In k K) ->
    forall (h : Heap) (rng : Rng),
      breeding_inv K om ofa oc h0 h ->
      exists (h' : Heap) (rng' : Rng),
        for_each (breed_gene ns) ks (h, rng) = (h', rng', Ok tt)
        /\ breeding_inv K om ofa oc h0 h'
        /\ (forall k, In k ks -> bred om ofa oc h0 h' k)
        /\ (forall k, bred om ofa oc h0 h k -> bred om ofa oc h0 h' k).
Proof.
  intros Hfam ks. induction ks as [|k ks IH]; intros Hks h rng Hinv.
  - exists h, rng. simpl. split; [reflexivity|]. split; [exact Hinv|].
    split; [intros k [] | auto].
  - destruct (breed_gene_inv ns K om ofa oc h0 h rng k Hfam
                (Hks k (or_introl eq_refl)) Hinv)
      as (h1 & Hstep & Hinv1 & Hk1 & Hkeep1).
    destruct (IH (fun k' Hin => Hks k' (or_intror Hin)) h1 (rng_next rng) Hinv1)
      as (h' & rng' & Hrun & Hinv' & Hdone & Hkeep).
    exists h', rng'. cbn [for_each]. rewrite Hstep.
    split; [exact Hrun|]. split; [exact Hinv'|]. split.
    + intros k' [<-|Hin]; [apply Hkeep; exact Hk1 | apply Hdone; exact Hin].
    + intros k' Hb. apply Hkeep, Hkeep1. exact Hb.
Qed.

(** X15: when [mother], [father] and [child] are bound to dict objects,
    distinct or not, and both parents have every parameter of the grid, the
    breeding step returns normally. Every store goes into the object
    [child] refers to, which ends with, for every parameter of the grid, a
    value that one of the parents held for it before the step, and with its
    other entries as before; every other dict object is unchanged. *)
Theorem breed_child_from_parents `{B : MLBackend} (grid : Grid) (ns : Namespace)
    (h : Heap) (rng : Rng) (om ofa oc : nat) :
  ns "mother" = Some (GDict om) ->
  ns "father" = Some (GDict ofa) ->
  ns "child" = Some (GDict oc) ->
  (forall k, In k (keys grid) ->
     dict_get k (h om) <> None /\ dict_get k (h ofa) <> None) ->
  exists (h' : Heap) (rng' : Rng),
    breed ns grid (h, rng) = (h', rng', Ok tt)
    /\ (forall o, o <> oc -> h' o = h o)
    /\ (forall k, In k (keys grid) ->
          exists v, dict_get k (h' oc) = Some v
                    /\ (dict_get k (h om) = Some v \/ dict_get k (h ofa) = Some v))
    /\ (forall k, ~ In k (keys grid) -> dict_get k (h' oc) = dict_get k (h oc)).
Proof.
  intros Hm Hf Hc Hks.
  assert (Hfam : family ns om ofa oc) by (repeat split; assumption).
  assert (Hinv : breeding_inv (keys grid) om ofa oc h h).
  { split; [reflexivity|]. split; [|split; [|reflexivity]].
    - intros k Hk. destruct (Hks k Hk) as [Ha _].
      destruct (dict_get k (h om)) as [a|] eqn:E; [|congruence].
      exists a. split; [reflexivity | left; exact E].
    - intros k Hk. destruct (Hks k Hk) as [_ Hb].
      destruct (dict_get k (h ofa)) as [b|] eqn:E; [|congruence].
      exists b. split; [reflexivity | right; exact E]. }
  destruct (breed_pass ns (keys grid) om ofa oc h Hfam (keys grid) (fun k Hk => Hk)
              h rng Hinv) as (h1 & rng1 & Hrun1 & Hinv1 & _ & _).
  destruct (breed_pass ns (keys grid) om ofa oc h Hfam (keys grid) (fun k Hk => Hk)
              h1 rng1 Hinv1) as (h2 & rng2 & Hrun2 & Hinv2 & Hdone & _).
  exists h2, rng2. unfold breed. cbn [seq for_each].
  rewrite Hrun1, Hrun2. split; [reflexivity|].
  destruct Hinv2 as (Hframe & _ & _ & Hout).
  split; [exact Hframe|]. split; [|exact Hout].
  intros k Hk. exact (Hdone k Hk).
Qed.

Lemma breed_child_from_parents_witness :
  exists (h' : Heap) (rng' : Rng),
    @breed toy_backend ns_with_family grid_two
      (family_heap [("units", AInt 1)] [("units", AInt 2)] [("seed", AInt 0)], rng0)
    = (h', rng', Ok tt)
    /\ (forall o, o <> 2%nat ->
          h' o = family_heap [("units", AInt 1)] [("units", AInt 2)]
                   [("seed", AInt 0)] o)
    /\ (forall k, In k (keys grid_two) ->
          exists v, dict_get k (h' 2%nat) = Some v
                    /\ (dict_get k (family_heap [("units", AInt 1)] [("units", AInt 2)]
                                      [("seed", AInt 0)] 0%nat) = Some v
                        \/ dict_get k (family_heap [("units", AInt 1)]
                                         [("units", AInt 2)] [("seed", AInt 0)] 1%nat)
                           = Some v))
    /\ (forall k, ~ In k (keys grid_two) ->
          dict_get k (h' 2%nat)
          = dict_get k (family_heap [("units", AInt 1)] [("units", AInt 2)]
                          [("seed", AInt 0)] 2%nat)).
Proof.
  apply (@breed_child_from_parents toy_backend grid_two ns_with_family
           (family_heap [("units", AInt 1)] [("units", AInt 2)] [("seed", AInt 0)])
           rng0 0%nat 1%nat 2%nat).
  - reflexivity.
  - reflexivity.
  - reflexivity.
  - intros k [<-|[]]. split; discriminate.
Defined.

(** With [child] and [mother] bound to one dict object, the store of line
    120 is seen through [mother]: here the father's value is drawn and the
    mother ends with it. *)
Example breed_child_is_mother :
  let h := family_heap [("units", AInt 1)] [("units", AInt 2)] [] in
  exists (h' : Heap) (rng' : Rng),
    @breed toy_backend ns_child_is_mother grid_two (h, rng1) = (h', rng', Ok tt)
    /\ h' 0%nat = [("units", AInt 2)]
    /\ h' 1%nat = [("units", AInt 2)].
Proof.
  eexists. eexists. split; [vm_compute; reflexivity|].
  split; reflexivity.
Qed.

(** A loop keeps a relation that its body keeps, if the relation is
    reflexive and transitive. *)
Lemma for_each_keeps {A S : Type} (R : S -> S -> Prop)
    (body : A -> S -> S * result unit) :
  (forall s, R s s) ->
  (forall s1 s2 s3, R s1 s2 -> R s2 s3 -> R s1 s3) ->
  (forall x s, R s (fst (body x s))) ->
  forall l s, R s (fst (for_each body l s)).
Proof.
  intros Hrefl Htrans Hbody l. induction l as [|x l IH]; intros s; simpl.
  - apply Hrefl.
  - pose proof (Hbody x s) as Hx.
    destruct (body x s) as [s1 [[]|e]]; simpl in *; [|exact Hx].
    eapply Htrans; [exact Hx | apply IH].
Qed.

Lemma breed_gene_only_child `{B : MLBackend} (ns : Namespace) (param : string)
    (st : Heap * Rng) (o : nat) :
  ns "child" <> Some (GDict o) ->
  fst (fst (breed_gene ns param st)) o = fst st o.
Proof.
  destruct st as [h rng]. intros Ho.
  unfold breed_gene.
  destruct (mother <- load_global ns "mother";;
            m <- subscript h mother param;;
            father <- load_global ns "father";;
            f <- subscript h father param;; random_choice [m; f] rng)
    as [[v rng']|e]; simpl; [|reflexivity].
  unfold load_global.
  destruct (ns "child") as [[| |oc|]|] eqn:Hc; simpl; try reflexivity.
  apply heap_set_ne. congruence.
Qed.

Lemma breed_only_child `{B : MLBackend} (ns : Namespace) (grid : Grid)
    (st : Heap * Rng) (o : nat) :
  ns "child" <> Some (GDict o) ->
  fst (fst (breed ns grid st)) o = fst st o.
Proof.
  intros Ho. unfold breed.
  pose (R := fun s1 s2 : Heap * Rng => fst s2 o = fst s1 o).
  assert (Hrefl : forall s, R s s) by (intros s; reflexivity).
  assert (Htrans : forall s1 s2 s3, R s1 s2 -> R s2 s3 -> R s1 s3).
  { unfold R. intros s1 s2 s3 H12 H23. rewrite H23. exact H12. }
  apply (for_each_keeps R
           (fun (_ : nat) => for_each (breed_gene ns) (keys grid)) Hrefl Htrans).
  intros _ s. apply (for_each_keeps R (breed_gene ns) Hrefl Htrans).
  intros k s0. unfold R. apply breed_gene_only_child. exact Ho.
Qed.

(** X16: however a call of [evolve] ends, it has rebound no global name,
    and the only dict object it can have written to is the one [child]
    refers to: every other dict object, the parents included when they are
    other objects, is as before the call. *)
Theorem evolve_only_writes_child_dict `{B : MLBackend} (ns : Namespace) (h : Heap)
    (self : NNGA) (g : Z) (X_train X_val : Features) (y_train y_val : Labels)
    (rng : Rng) (o : nat) :
  ns "child" <> Some (GDict o) ->
  run_heap (evolve ns h self g X_train X_val y_train y_val rng) o = h o
  /\ (forall x, run_ns (evolve ns h self g X_train X_val y_train y_val rng) x = ns x).
Proof.
  intros Ho. unfold evolve.
  destruct (gen_pop_of g (py_iter (pop self))) as [gp|e]; [|split; reflexivity].
  destruct (evaluate self X_train X_val y_train y_val gp []) as [[gp' tr] [[]|e]];
    [|split; reflexivity].
  pose proof (breed_only_child ns (param_grid self) (h, rng) o Ho) as Hb.
  destruct (breed ns (param_grid self) (h, rng)) as [[h' rng'] r].
  split; [exact Hb | reflexivity].
Qed.

Lemma evolve_only_writes_child_dict_witness :
  run_heap (@evolve toy_backend ns_child_is_mother
              (family_heap [("units", AInt 1)] [("units", AInt 2)] [])
              (toy_nnga (Some "regression") (PopList []) grid_two) 0 1 2 3 4 rng1)
           1%nat
  = [("units", AInt 2)]
  /\ (forall x,
        run_ns (@evolve toy_backend ns_child_is_mother
                  (family_heap [("units", AInt 1)] [("units", AInt 2)] [])
                  (toy_nnga (Some "regression") (PopList []) grid_two) 0 1 2 3 4 rng1)
               x
        = ns_child_is_mother x).
Proof.
  apply (@evolve_only_writes_child_dict toy_backend ns_child_is_mother
           (family_heap [("units", AInt 1)] [("units", AInt 2)] [])
           (toy_nnga (Some "regression") (PopList []) grid_two) 0 1 2 3 4 rng1 1%nat).
  discriminate.
Defined.

(** ** fit before the ranking loop (lines 127-140) *)



(** ** The ranking of the grades (lines 149-150) *)

Lemma insert_grade_perm `{B : MLBackend} (x : Grade) (l : list Grade) :
  Permutation (insert_grade x l) (x :: l).
Proof.
  induction l as [|y l IH]; simpl; [reflexivity|].
  destruct (float_ltb (ndarray_mean (fst x)) (ndarray_mean (fst y))).
  - rewrite IH. apply perm_swap.
  - reflexivity.
Qed.

Lemma sorted_by_mean_desc_perm `{B : MLBackend} (l : list Grade) :
  Permutation (sorted_by_mean_desc l) l.
Proof.
  unfold sorted_by_mean_desc. induction l as [|x l IH]; simpl; [reflexivity|].
  rewrite insert_grade_perm. apply perm_skip. exact IH.
Qed.

Lemma length_grade_all `{B : MLBackend} (models : list (Model * ParamDict))
    (X : Features) (y : Labels) :
  forall collected, grade_all models X y = Ok collected ->
                    length collected = length models.
Proof.
  induction models as [|[mdl d] models IH]; intros collected H; simpl in H.
  - inversion H. reflexivity.
  - destruct (cross_val_score mdl X y) as [sc|e]; simpl in H; [|discriminate].
    destruct (grade_all models X y) as [l|e]; simpl in H; [|discriminate].
    inversion H. simpl. f_equal. apply IH. reflexivity.
Qed.

Lemma length_grade_without_nan `{B : MLBackend} (models : list (Model * ParamDict))
    (X : Features) (y : Labels) :
  forall collected, grade_without_nan models X y = Ok collected ->
                    (length collected <= length models)%nat.
Proof.
  induction models as [|[mdl d] models IH]; intros collected H; simpl in H.
  - inversion H. simpl. lia.
  - destruct (cross_val_score mdl X y) as [sc|e]; simpl in H; [|discriminate].
    destruct (grade_without_nan models X y) as [l|e]; simpl in H; [|discriminate].
    specialize (IH l eq_refl). inversion H.
    destruct (no_nan sc); simpl; lia.
Qed.

(** X18: the ranked grades are a rearrangement of the grades collected:
    every model's grade in regression mode (one grade per model), the grades
    that passed the NaN test otherwise (at most one per model). *)
Theorem cv_grades_rearranges `{B : MLBackend} (models : list (Model * ParamDict))
    (X : Features) (y : Labels) (grades : list Grade) :
  cv_grades models X y = Ok grades ->
  exists m0 d0 tl mode0,
    models = (m0, d0) :: tl
    /\ model_mode m0 = Ok mode0
    /\ (length grades <= length models)%nat
    /\ (mode0 = Some AMM_REG_NAME ->
        exists collected,
          grade_all models X y = Ok collected
          /\ Permutation grades collected
          /\ length grades = length models)
    /\ (mode0 <> Some AMM_REG_NAME ->
        exists collected,
          grade_without_nan models X y = Ok collected
          /\ Permutation grades collected).
Proof.
  unfold cv_grades. destruct models as [|[m0 d0] tl]; [discriminate|].
  destruct (model_mode m0) as [mode0|e] eqn:Hmode; cbn [bind]; [|discriminate].
  intros H. exists m0, d0, tl, mode0.
  split; [reflexivity|]. split; [exact Hmode|].
  destruct (mode_is mode0 AMM_REG_NAME) eqn:Hreg.
  - destruct (grade_all ((m0, d0) :: tl) X y) as [collected|e] eqn:Hall;
      cbn [bind] in H; [|discriminate].
    inversion H; subst grades.
    pose proof (sorted_by_mean_desc_perm collected) as Hp.
    pose proof (length_grade_all _ X y collected Hall) as Hlen.
    assert (Hl : length (sorted_by_mean_desc collected) = length ((m0, d0) :: tl)).
    { etransitivity; [apply (Permutation_length Hp) | exact Hlen]. }
    split; [apply Nat.eq_le_incl; exact Hl|]. split.
    + intros _. exists collected. split; [reflexivity|]. split; assumption.
    + intros Hm. apply mode_is_true in Hreg. contradiction.
  - destruct (grade_without_nan ((m0, d0) :: tl) X y) as [collected|e] eqn:Hkept;
      cbn [bind] in H; [|discriminate].
    inversion H; subst grades.
    pose proof (sorted_by_mean_desc_perm collected) as Hp.
    pose proof (length_grade_without_nan _ X y collected Hkept) as Hle.
    split; [|split].
    + eapply Nat.le_trans; [apply Nat.eq_le_incl, (Permutation_length Hp) | exact Hle].
    + intros Hm. apply mode_is_false in Hreg. contradiction.
    + intros _. exists collected. split; [reflexivity | exact Hp].
Qed.

Lemma cv_grades_rearranges_witness :
  exists (m0 : @Model toy_backend) d0 tl mode0,
    toy_models = (m0, d0) :: tl
    /\ model_mode m0 = Ok mode0
    /\ (length [([toy_float 12], [("units", AInt 8)]); ([toy_float 7], [("units", AInt 3)])]
        <= length toy_models)%nat
    /\ (mode0 = Some (@AMM_REG_NAME toy_backend) ->
        exists collected,
          @grade_all toy_backend toy_models 2 2 = Ok collected
          /\ Permutation
               [([toy_float 12], [("units", AInt 8)]); ([toy_float 7], [("units", AInt 3)])]
               collected
          /\ length [([toy_float 12], [("units", AInt 8)]);
                     ([toy_float 7], [("units", AInt 3)])]
             = length toy_models)
    /\ (mode0 <> Some (@AMM_REG_NAME toy_backend) ->
        exists collected,
          @grade_without_nan toy_backend toy_models 2 2 = Ok collected
          /\ Permutation
               [([toy_float 12], [("units", AInt 8)]); ([toy_float 7], [("units", AInt 3)])]
               collected).
Proof.
  apply (@cv_grades_rearranges toy_backend toy_models 2 2
           [([toy_float 12], [("units", AInt 8)]); ([toy_float 7], [("units", AInt 3)])]).
  reflexivity.
Defined.

(** [x] does not rank below [y]. *)
Lemma insert_grade_sorted `{B : MLBackend} (S : Grade -> Prop) (x : Grade)
    (l : list Grade) :
  (forall a b, S a -> S b ->
     float_ltb (ndarray_mean (fst a)) (ndarray_mean (fst b)) = true ->
     float_ltb (ndarray_mean (fst b)) (ndarray_mean (fst a)) = false) ->
  (forall a b c, S a -> S b -> S c ->
     float_ltb (ndarray_mean (fst a)) (ndarray_mean (fst b)) = false ->
     float_ltb (ndarray_mean (fst b)) (ndarray_mean (fst c)) = false ->
     float_ltb (ndarray_mean (fst a)) (ndarray_mean (fst c)) = false) ->
  S x ->
  Forall S l ->
  StronglySorted
    (fun a b => float_ltb (ndarray_mean (fst a)) (ndarray_mean (fst b)) = false) l ->
  StronglySorted
    (fun a b => float_ltb (ndarray_mean (fst a)) (ndarray_mean (fst b)) = false)
    (insert_grade x l).
Proof.
  intros Hasym Htrans Hx Hl Hs.
  induction l as [|y l IH]; simpl.
  - constructor; constructor.
  - apply List.Forall_cons_iff in Hl as [Hy Hl].
    apply StronglySorted_inv in Hs as [Hs Hall].
    destruct (float_ltb (ndarray_mean (fst x)) (ndarray_mean (fst y))) eqn:E.
    + constructor; [apply IH; assumption|].
      apply List.Forall_forall. intros z Hz.
      apply In_insert_grade in Hz as [->|Hz].
      * apply Hasym; assumption.
      * rewrite List.Forall_forall in Hall. apply Hall. exact Hz.
    + constructor; [constructor; assumption|].
      constructor; [exact E|].
      rewrite List.Forall_forall in Hall, Hl |- *.
      intros z Hz. apply (Htrans x y z); auto.
Qed.

(** X19: when, on the means of the grades at hand, the comparison of
    floats is asymmetric and "not below" is transitive (as it is without
    NaN), the ranking is in decreasing order of mean: no grade is followed,
    at any distance, by one with a larger mean. *)
Theorem sorted_by_mean_desc_sorted `{B : MLBackend} (l : list Grade) :
  (forall a b, In a l -> In b l ->
     float_ltb (ndarray_mean (fst a)) (ndarray_mean (fst b)) = true ->
     float_ltb (ndarray_mean (fst b)) (ndarray_mean (fst a)) = false) ->
  (forall a b c, In a l -> In b l -> In c l ->
     float_ltb (ndarray_mean (fst a)) (ndarray_mean (fst b)) = false ->
     float_ltb (ndarray_mean (fst b)) (ndarray_mean (fst c)) = false ->
     float_ltb (ndarray_mean (fst a)) (ndarray_mean (fst c)) = false) ->
  StronglySorted
    (fun a b => float_ltb (ndarray_mean (fst a)) (ndarray_mean (fst b)) = false)
    (sorted_by_mean_desc l).
Proof.
  intros Hasym Htrans.
  assert (Hgen : forall l', (forall z, In z l' -> In z l) ->
            StronglySorted
              (fun a b => float_ltb (ndarray_mean (fst a)) (ndarray_mean (fst b)) = false)
              (sorted_by_mean_desc l')).
  { induction l' as [|x l' IH]; intros Hsub; [constructor|].
    change (sorted_by_mean_desc (x :: l'))
      with (insert_grade x (sorted_by_mean_desc l')).
    apply (insert_grade_sorted (fun z => In z l)); auto.
    - apply Hsub. left. reflexivity.
    - apply List.Forall_forall. intros z Hz.
      apply (proj1 (In_sorted_by_mean_desc z l')) in Hz. apply Hsub. right. exact Hz.
    - apply IH. intros z Hz. apply Hsub. right. exact Hz. }
  apply Hgen. auto.
Qed.

Lemma sorted_by_mean_desc_sorted_witness :
  StronglySorted
    (fun a b : @Grade toy_backend =>
       float_ltb (ndarray_mean (fst a)) (ndarray_mean (fst b)) = false)
    (@sorted_by_mean_desc toy_backend
       [([toy_float 7], [("units", AInt 3)]); ([toy_float 12], [("units", AInt 8)])]).
Proof.
  apply (@sorted_by_mean_desc_sorted toy_backend
           [([toy_float 7], [("units", AInt 3)]); ([toy_float 12], [("units", AInt 8)])]).
  - intros a b [<-|[<-|[]]] [<-|[<-|[]]]; simpl; intros H;
      first [reflexivity | discriminate].
  - intros a b c [<-|[<-|[]]] [<-|[<-|[]]] [<-|[<-|[]]]; simpl; intros H1 H2;
      first [reflexivity | discriminate].
Defined.
